(** * Rubbish-bin simulation: boundary detection, container selection,
      timestep engine, status publishers, driver and log consumer.

    A shallow embedding of [simulated_city/rubbish_sim.py] and of the consumer
    side of [simulated_city/dashboard_data.py] (with the read loop of
    [scripts/dashboard/bin_dashboard.py]).

    Conventions of the embedding:
    - Python [int] is [Z]; [//] on a positive divisor is [Z.div] (both floor).
    - Python [float] values that are only compared or carried along
      (uniform draws, [arrival_prob], [lat], [lon]) are rationals [Q].
    - A call that may raise returns a [Result]; code that performs output
      threads a [World] and ends in an [Outcome].
    - The random generator is an interface ([RandomSource]); every call to it
      is counted in the [draws] field of the generator handle.
    - A [datetime] is an instant in UTC, counted in microseconds from
      1970-01-01T00:00:00Z; additions check the range of years 1 to 9999 as
      [datetime.__add__] does.
    - A Python [str] is its UTF-8 text; operations that depend on the Unicode
      class of a character ([str.strip]) belong to the library interface
      [PyLib]. *)

From Stdlib Require Import ZArith QArith Qround String Ascii List Lia Sorting.Sorted.
From stdpp Require Import base option list list_numbers strings gmap pretty.

Set Warnings "-register-all".

Local Open Scope string_scope.
Local Open Scope list_scope.
Local Open Scope Z_scope.

(** ** Exceptions and results *)

Inductive PyExn : Type :=
  | ValueError (msg : string)
  | TypeError
  | KeyError (key : string)
  | OverflowError
  | AssertionError
  | NotImplementedError
  | FileNotFoundError
  | ConnectionError (msg : string)
  | UnicodeDecodeError
  | OSError (msg : string).

Inductive Result (A : Type) : Type :=
  | Ok (a : A)
  | Raise (e : PyExn).
Arguments Ok {A} a.
Arguments Raise {A} e.

(** ** BoundaryDetector *)

(** Python's [range(a, b)] over integers. *)
Definition py_range (a b : Z) : list Z := seqZ a (b - a).

Definition boundaries_crossed (old_fill_pct new_fill_pct boundary_pct : Z)
  : Result (list Z) :=
  if boundary_pct <=? 0 then Raise (ValueError "boundary_pct must be > 0")
  else
    let old_bucket := old_fill_pct / boundary_pct in
    let new_bucket := new_fill_pct / boundary_pct in
    if new_bucket <=? old_bucket then Ok []
    else Ok ((fun i => i * boundary_pct) <$> py_range (old_bucket + 1) (new_bucket + 1)).


(** ** Random source *)

(** The interface of [random.Random] that the simulation uses.  [rs_random]
    is [rng.random()]; [rs_randbelow n] is the index that [rng.choice] picks in
    a sequence of length [n] (it lies below [n]); [rs_seed] is
    [random.Random(seed)] for an integer seed. *)
Class RandomSource (G : Type) : Type := {
  rs_seed : Z -> G;
  rs_random : G -> Q * G;
  rs_randbelow : nat -> G -> nat * G;
  rs_randbelow_lt : forall (n : nat) (g : G),
    (0 < n)%nat -> (fst (rs_randbelow n g) < n)%nat
}.

(** A generator handle: the generator state and the number of calls made. *)
Record Rng (G : Type) : Type := mkRng { gen : G; draws : nat }.
Arguments mkRng {G} gen draws.
Arguments gen {G} r.
Arguments draws {G} r.

Section RngOps.
Context {G : Type} `{RandomSource G}.

Definition rng_random (rng : Rng G) : Q * Rng G :=
  let (x, g') := rs_random (gen rng) in (x, mkRng g' (S (draws rng))).

(** [rng.choice(seq)] on a non-empty sequence [x :: xs]. *)
Definition rng_choice {A : Type} (rng : Rng G) (x : A) (xs : list A) : A * Rng G :=
  let (i, g') := rs_randbelow (S (length xs)) (gen rng) in
  (nth i (x :: xs) x, mkRng g' (S (draws rng))).

End RngOps.

(** Comparison [x < y] of two floats, as a boolean. *)
Definition Qltb (x y : Q) : bool := negb (Qle_bool y x).

(** ** State model *)

Inductive ContainerName : Type := Left | Center | Right.

#[export] Instance ContainerName_eq_dec : EqDecision ContainerName.
Proof. solve_decision. Defined.

Definition container_str (c : ContainerName) : string :=
  match c with Left => "left" | Center => "center" | Right => "right" end.

Record ContainerState : Type := mkContainerState { fill_pct : Z }.

Definition is_full (c : ContainerState) : bool := 100 <=? fill_pct c.

Record LocationState : Type := mkLocationState {
  location_id : string;
  lat : Q;
  lon : Q;
  left : ContainerState;
  center : ContainerState;
  right : ContainerState
}.

Record DepositResult : Type := mkDepositResult {
  deposited : bool;
  container : option ContainerName;
  old_fill_pct : option Z;
  new_fill_pct : option Z
}.

Record SimulationLocationConfig : Type := mkSimulationLocationConfig {
  cfg_location_id : string;
  cfg_lat : Q;
  cfg_lon : Q
}.

(** Timestamps ([datetime]) are instants in microseconds since the epoch. *)
Record SimulationConfig : Type := mkSimulationConfig {
  timestep_minutes : Z;
  arrival_prob : Q;
  bag_fill_delta_pct : Z;
  status_boundary_pct : Z;
  publish_every_deposit : bool;
  step_delay_s : Q;
  start_time : option Z;
  seed : option Z;
  locations : list SimulationLocationConfig
}.

Record MqttConfig : Type := mkMqttConfig {
  host : string;
  port : Z;
  tls : bool;
  username : option string;
  password : option string;
  client_id_prefix : string;
  keepalive_s : Z;
  base_topic : string
}.

Record AppConfig : Type := mkAppConfig {
  mqtt : MqttConfig;
  simulation : option SimulationConfig
}.

(** [getattr(loc_state, container_name)]. *)
Definition get_container (loc : LocationState) (c : ContainerName) : ContainerState :=
  match c with Left => left loc | Center => center loc | Right => right loc end.

(** ** ContainerSelector and TimestepEngine *)

(** The dictionary [containers] of [choose_container]: its items in
    insertion order, and its lookup by name. *)
Definition containers_items (left center right : ContainerState)
  : list (ContainerName * ContainerState) :=
  [(Left, left); (Center, center); (Right, right)].

Definition containers_get (left center right : ContainerState)
  (name : ContainerName) : ContainerState :=
  match name with Left => left | Center => center | Right => right end.

(** [[name for name, state in containers.items() if not state.is_full]] *)
Definition available_containers (left center right : ContainerState)
  : list ContainerName :=
  fst <$> List.filter (fun item => negb (is_full (snd item)))
                      (containers_items left center right).

Definition _apply_deposit (container : ContainerState) (delta_pct : Z)
  : ContainerState * Z * Z :=
  let old_fill := fill_pct container in
  let new_fill := Z.min 100 (old_fill + delta_pct) in
  (mkContainerState new_fill, old_fill, new_fill).

Definition no_deposit : DepositResult := mkDepositResult false None None None.

Section Engine.
Context {G : Type} `{RandomSource G}.

(** Pick the preferred container using the 50/25/25 rule. *)
Definition _pick_preferred_container (rng : Rng G) : ContainerName * Rng G :=
  let (roll, rng1) := rng_random rng in
  if Qltb roll (1 # 4) then (Left, rng1)
  else if Qltb roll (3 # 4) then (Center, rng1)
  else (Right, rng1).

(** Choose a container with fallback if the preferred one is full. *)
Definition choose_container (rng : Rng G) (left center right : ContainerState)
  : option ContainerName * Rng G :=
  let (preferred, rng1) := _pick_preferred_container rng in
  if negb (is_full (containers_get left center right preferred))
  then (Some preferred, rng1)
  else
    match available_containers left center right with
    | [] => (None, rng1)
    | name :: names =>
        let (chosen, rng2) := rng_choice rng1 name names in (Some chosen, rng2)
    end.

(** Advance one timestep for a single location. *)
Definition step_location (rng : Rng G) (sim_cfg : SimulationConfig)
  (location : LocationState) : LocationState * DepositResult * Rng G :=
  let (roll, rng1) := rng_random rng in
  let arrived := Qltb roll (arrival_prob sim_cfg) in
  if negb arrived then (location, no_deposit, rng1)
  else
    let (chosen, rng2) :=
      choose_container rng1 (left location) (center location) (right location) in
    match chosen with
    | None => (location, no_deposit, rng2)
    | Some Left =>
        let '(new_state, old_fill, new_fill) :=
          _apply_deposit (left location) (bag_fill_delta_pct sim_cfg) in
        (mkLocationState (location_id location) (lat location) (lon location)
           new_state (center location) (right location),
         mkDepositResult true (Some Left) (Some old_fill) (Some new_fill), rng2)
    | Some Center =>
        let '(new_state, old_fill, new_fill) :=
          _apply_deposit (center location) (bag_fill_delta_pct sim_cfg) in
        (mkLocationState (location_id location) (lat location) (lon location)
           (left location) new_state (right location),
         mkDepositResult true (Some Center) (Some old_fill) (Some new_fill), rng2)
    | Some Right =>
        let '(new_state, old_fill, new_fill) :=
          _apply_deposit (right location) (bag_fill_delta_pct sim_cfg) in
        (mkLocationState (location_id location) (lat location) (lon location)
           (left location) (center location) new_state,
         mkDepositResult true (Some Right) (Some old_fill) (Some new_fill), rng2)
    end.

(** [n] successive calls of [step_location] on one location. *)
Fixpoint step_location_n (n : nat) (rng : Rng G) (sim_cfg : SimulationConfig)
  (location : LocationState) : LocationState * Rng G :=
  match n with
  | O => (location, rng)
  | S n' =>
      let '(updated, _, rng') := step_location rng sim_cfg location in
      step_location_n n' rng' sim_cfg updated
  end.

End Engine.

Definition _initial_location_state (loc : SimulationLocationConfig) : LocationState :=
  mkLocationState (cfg_location_id loc) (cfg_lat loc) (cfg_lon loc)
    (mkContainerState 0) (mkContainerState 0) (mkContainerState 0).

(** ** Status payloads and the outside world *)

(** The dictionary built by [make_status_payload] (its JSON rendering keeps
    exactly these fields). *)
Record StatusPayload : Type := mkStatusPayload {
  p_ts : Z;
  p_location_id : string;
  p_lat : Q;
  p_lon : Q;
  p_container : string;
  p_fill_pct : Z;
  p_timestep_index : Z;
  p_event : string
}.

(** The keyword arguments of one [publish_status] call. *)
Record StatusMsg : Type := mkStatusMsg {
  m_ts : Z;
  m_location : LocationState;
  m_container : ContainerName;
  m_fill_pct : Z;
  m_timestep_index : Z;
  m_event : string
}.

Definition make_status_payload (ts : Z) (location : LocationState)
  (container : ContainerName) (fill_pct timestep_index : Z) (event : string)
  : StatusPayload :=
  mkStatusPayload ts (location_id location) (lat location) (lon location)
    (container_str container) fill_pct timestep_index event.

(** Modelled from the spec: [topic] of the module [mqtt], which is not part of
    the sources; the spec gives the full topic as
    [<base_topic>/bins/<location_id>/<container>/status]. *)
Definition topic (mqtt_cfg : MqttConfig) (suffix : string) : string :=
  base_topic mqtt_cfg +:+ "/" +:+ suffix.

Definition status_suffix (location : LocationState) (container : ContainerName)
  : string :=
  "bins/" +:+ location_id location +:+ "/" +:+ container_str container +:+ "/status".

(** One emitted line: the topic and the payload. *)
Definition Line : Type := string * StatusPayload.

Record FileState : Type := mkFileState {
  file_closed : bool;
  file_lines : list Line
}.

Record BrokerMsg : Type := mkBrokerMsg {
  b_topic : string;
  b_payload : StatusPayload;
  b_qos : Z;
  b_retain : bool
}.

(** Everything the simulator can write to: standard output, the files it has
    opened (by path) and the messages handed to the broker. *)
Record World : Type := mkWorld {
  w_stdout : list Line;
  w_files : gmap string FileState;
  w_broker : list BrokerMsg
}.

Inductive Outcome (A : Type) : Type :=
  | Returned (a : A) (w : World)
  | Raised (e : PyExn) (w : World).
Arguments Returned {A} a w.
Arguments Raised {A} e w.

(** Code with output: a world transformer that returns or raises. *)
Definition IO (A : Type) : Type := World -> Outcome A.

Definition io_ret {A : Type} (a : A) : IO A := fun w => Returned a w.

Definition io_raise {A : Type} (e : PyExn) : IO A := fun w => Raised e w.

Definition io_bind {A B : Type} (m : IO A) (k : A -> IO B) : IO B :=
  fun w =>
    match m w with
    | Returned a w' => k a w'
    | Raised e w' => Raised e w'
    end.

Notation "x <- m ;; k" := (io_bind m (fun x => k))
  (at level 100, m at next level, right associativity).
Notation "m ;; k" := (io_bind m (fun _ => k))
  (at level 100, right associativity).

(** [try: body finally: cleanup] *)
Definition io_finally {A : Type} (body : IO A) (cleanup : IO unit) : IO A :=
  fun w =>
    match body w with
    | Returned a w' =>
        match cleanup w' with
        | Returned _ w'' => Returned a w''
        | Raised e w'' => Raised e w''
        end
    | Raised e w' =>
        match cleanup w' with
        | Returned _ w'' => Raised e w''
        | Raised e' w'' => Raised e' w''
        end
    end.

(** [for x in xs: body(x)] *)
Fixpoint io_for {A : Type} (xs : list A) (body : A -> IO unit) : IO unit :=
  match xs with
  | [] => io_ret tt
  | x :: xs' => body x ;; io_for xs' body
  end.

(** [print(...)] of one dry-run line.  Printing is taken to succeed. *)
Definition print_line (l : Line) : IO unit :=
  fun w => Returned tt (mkWorld (w_stdout w ++ [l]) (w_files w) (w_broker w)).

(** [open(path, "w")] when it succeeds: the file is created or truncated.
    The handle is the path.  An [open] that fails (a missing directory, no
    permission) raises before the [try] block of [run_simulation] is entered;
    that case is not part of the model, and what is stated about a run with a
    log file is stated from the world this function returns. *)
Definition open_w (path : string) : IO string :=
  fun w => Returned path
    (mkWorld (w_stdout w) (<[path := mkFileState false []]> (w_files w)) (w_broker w)).

(** [fp.write(line); fp.flush()]: writing to a closed file raises; a write to
    an open file is taken to succeed. *)
Definition fp_write (fp : string) (l : Line) : IO unit :=
  fun w =>
    match w_files w !! fp with
    | Some f =>
        if file_closed f then Raised (ValueError "I/O operation on closed file.") w
        else Returned tt
          (mkWorld (w_stdout w)
             (<[fp := mkFileState false (file_lines f ++ [l])]> (w_files w))
             (w_broker w))
    | None => Raised (ValueError "I/O operation on closed file.") w
    end.

(** [fp.close()] *)
Definition fp_close (fp : string) : IO unit :=
  fun w =>
    match w_files w !! fp with
    | Some f => Returned tt
        (mkWorld (w_stdout w)
           (<[fp := mkFileState true (file_lines f)]> (w_files w)) (w_broker w))
    | None => Returned tt w
    end.

(** The handle returned by [connect_mqtt] (module [mqtt], not part of the
    sources) with the operations the simulation calls on it and on its
    client. *)
Record MqttClientHandle : Type := mkMqttClientHandle {
  publish_json : string -> StatusPayload -> Z -> bool -> IO unit;
  loop_start : IO unit;
  loop_stop : IO unit;
  disconnect : IO unit
}.

(** ** EventPublisher *)

(** The publisher classes.  [BaseStatusPublisher] is the interface class
    [StatusPublisher] itself, whose method raises [NotImplementedError]. *)
Inductive StatusPublisher : Type :=
  | BaseStatusPublisher
  | NoopStatusPublisher
  | StdoutStatusPublisher (mqtt_cfg : MqttConfig)
  | JsonlFileStatusPublisher (mqtt_cfg : MqttConfig) (fp : string)
  | TeeStatusPublisher (publishers : list StatusPublisher)
  | MqttStatusPublisher (handle : MqttClientHandle) (mqtt_cfg : MqttConfig).

Definition msg_payload (m : StatusMsg) : StatusPayload :=
  make_status_payload (m_ts m) (m_location m) (m_container m) (m_fill_pct m)
    (m_timestep_index m) (m_event m).

Definition msg_topic (mqtt_cfg : MqttConfig) (m : StatusMsg) : string :=
  topic mqtt_cfg (status_suffix (m_location m) (m_container m)).

Fixpoint publish_status (p : StatusPublisher) (m : StatusMsg) : IO unit :=
  match p with
  | BaseStatusPublisher => io_raise NotImplementedError
  | NoopStatusPublisher => io_ret tt
  | StdoutStatusPublisher mqtt_cfg =>
      print_line (msg_topic mqtt_cfg m, msg_payload m)
  | JsonlFileStatusPublisher mqtt_cfg fp =>
      fp_write fp (msg_topic mqtt_cfg m, msg_payload m)
  | TeeStatusPublisher publishers =>
      (fix each (ps : list StatusPublisher) : IO unit :=
         match ps with
         | [] => io_ret tt
         | q :: qs => publish_status q m ;; each qs
         end) publishers
  | MqttStatusPublisher handle mqtt_cfg =>
      publish_json handle (msg_topic mqtt_cfg m) (msg_payload m) 1 true
  end.

(** [TeeStatusPublisher.publish_status] as a loop over the publishers. *)
Definition tee_publish (publishers : list StatusPublisher) (m : StatusMsg) : IO unit :=
  io_for publishers (fun p => publish_status p m).

(** ** SimulationDriver *)

(** What a run reads from its surroundings when the configuration leaves it
    open: the wall clock ([datetime.now]) and the generator that
    [random.Random(None)] seeds from the operating system. *)
Record Env (G : Type) : Type := mkEnv {
  env_now : Z;
  env_entropy : G
}.
Arguments mkEnv {G} env_now env_entropy.
Arguments env_now {G} e.
Arguments env_entropy {G} e.

(** The length of [n] minutes, in microseconds. *)
Definition timedelta_minutes (n : Z) : Z := n * 60000000.

(** [timedelta(minutes=n)] with the check of its constructor: the number of
    whole days must lie between -999999999 and 999999999. *)
Definition py_timedelta_minutes (n : Z) : Result Z :=
  let days := timedelta_minutes n / 86400000000 in
  if (days <? -999999999) || (999999999 <? days) then Raise OverflowError
  else Ok (timedelta_minutes n).

(** [datetime.min] (0001-01-01T00:00:00) and [datetime.max]
    (9999-12-31T23:59:59.999999). *)
Definition datetime_min : Z := -62135596800000000.
Definition datetime_max : Z := 253402300799999999.

(** [dt + delta]: the sum must be a date of the years 1 to 9999. *)
Definition datetime_add (dt delta : Z) : Result Z :=
  let r := dt + delta in
  if (r <? datetime_min) || (datetime_max <? r) then Raise OverflowError
  else Ok r.

(** [start_ts + timedelta(minutes=timestep_minutes * timestep_index)] *)
Definition timestep_ts (start_ts timestep_minutes timestep_index : Z) : Result Z :=
  match py_timedelta_minutes (timestep_minutes * timestep_index) with
  | Raise e => Raise e
  | Ok delta => datetime_add start_ts delta
  end.

(** [publishers.append(last)] followed by
    [TeeStatusPublisher(publishers=tuple(publishers)) if len(publishers) > 1
    else publishers[0]]. *)
Definition select_publisher (publishers : list StatusPublisher) (last : StatusPublisher)
  : StatusPublisher :=
  match publishers with
  | [] => last
  | _ :: _ => TeeStatusPublisher (publishers ++ [last])
  end.

(** The body of the deposit branch of the location loop: what is published
    after one [step_location]. *)
Definition publish_deposit (publisher : StatusPublisher) (sim_cfg : SimulationConfig)
  (ts timestep_index : Z) (updated : LocationState) (deposit : DepositResult)
  : IO unit :=
  if negb (deposited deposit) then io_ret tt
  else
    match container deposit, old_fill_pct deposit, new_fill_pct deposit with
    | Some c, Some old_fill, Some new_fill =>
        if publish_every_deposit sim_cfg then
          publish_status publisher
            (mkStatusMsg ts updated c new_fill timestep_index "status")
        else
          match boundaries_crossed old_fill new_fill (status_boundary_pct sim_cfg) with
          | Raise e => io_raise e
          | Ok boundaries =>
              io_for boundaries (fun _boundary =>
                publish_status publisher
                  (mkStatusMsg ts updated c new_fill timestep_index "status"))
          end
    | _, _, _ => io_raise AssertionError
    end.

(** The initial status of every container of every location. *)
Definition publish_init (publisher : StatusPublisher) (start_ts : Z)
  (locations : list LocationState) : IO unit :=
  io_for locations (fun loc_state =>
    io_for [Left; Center; Right] (fun container_name =>
      publish_status publisher
        (mkStatusMsg start_ts loc_state container_name
           (fill_pct (get_container loc_state container_name)) (-1) "init"))).

Definition no_simulation_msg : string :=
  "No simulation configured. Add a 'simulation.locations' section in config.yaml.".

Section Driver.
Context {G : Type} `{RandomSource G}.

(** [random.Random(seed)] *)
Definition Random (env : Env G) (seed : option Z) : Rng G :=
  match seed with
  | Some s => mkRng (rs_seed s) 0
  | None => mkRng (env_entropy env) 0
  end.

(** One iteration of [for i, loc_state in enumerate(locations)]. *)
Definition sim_location_step (publisher : StatusPublisher) (sim_cfg : SimulationConfig)
  (ts timestep_index : Z) (rng : Rng G) (loc_state : LocationState)
  : IO (LocationState * Rng G) :=
  let '(updated, deposit, rng') := step_location rng sim_cfg loc_state in
  publish_deposit publisher sim_cfg ts timestep_index updated deposit ;;
  io_ret (updated, rng').

(** The loop over the locations of one timestep, in list order; it returns
    the updated list. *)
Fixpoint sim_locations (publisher : StatusPublisher) (sim_cfg : SimulationConfig)
  (ts timestep_index : Z) (rng : Rng G) (locs : list LocationState)
  : IO (list LocationState * Rng G) :=
  match locs with
  | [] => io_ret ([], rng)
  | loc_state :: rest =>
      r <- sim_location_step publisher sim_cfg ts timestep_index rng loc_state ;;
      rs <- sim_locations publisher sim_cfg ts timestep_index (snd r) rest ;;
      io_ret (fst r :: fst rs, snd rs)
  end.

(** The loop [for timestep_index in range(steps)].  The timestamp of a
    timestep is computed before its locations are visited, and an
    [OverflowError] of that computation ends the loop.  The pause
    [time.sleep(step_delay_s)] after a timestep, made only when
    [step_delay_s > 0], changes nothing of the world and is left out: what is
    stated about a run that returns is stated for [step_delay_s <= 0]. *)
Fixpoint sim_timesteps (publisher : StatusPublisher) (sim_cfg : SimulationConfig)
  (start_ts : Z) (indices : list Z) (rng : Rng G) (locs : list LocationState)
  : IO (list LocationState * Rng G) :=
  match indices with
  | [] => io_ret (locs, rng)
  | timestep_index :: later =>
      match timestep_ts start_ts (timestep_minutes sim_cfg) timestep_index with
      | Raise e => io_raise e
      | Ok ts =>
          r <- sim_locations publisher sim_cfg ts timestep_index rng locs ;;
          sim_timesteps publisher sim_cfg start_ts later (snd r) (fst r)
      end
  end.

(** Run the simulation for a given number of timesteps.  [connect_mqtt] is
    the function of the module [mqtt] (not part of the sources) applied to the
    MQTT configuration. *)
Definition run_simulation (connect_mqtt : MqttConfig -> IO MqttClientHandle)
  (env : Env G) (cfg : AppConfig) (steps : Z) (dry_run : bool)
  (seed_override : option Z) (log_file : option string) : IO unit :=
  if steps <=? 0 then io_raise (ValueError "steps must be > 0")
  else
    match simulation cfg with
    | None => io_raise (ValueError no_simulation_msg)
    | Some sim_cfg =>
        match locations sim_cfg with
        | [] => io_raise (ValueError no_simulation_msg)
        | _ :: _ =>
            let seed :=
              match seed_override with
              | Some s => Some s
              | None => seed sim_cfg
              end in
            let rng := Random env seed in
            let locs := _initial_location_state <$> locations sim_cfg in
            opened <-
              match log_file with
              | Some path =>
                  if String.eqb path "" then io_ret (None, [])
                  else
                    log_fp <- open_w path ;;
                    io_ret (Some log_fp, [JsonlFileStatusPublisher (mqtt cfg) log_fp])
              | None => io_ret (None, [])
              end ;;
            let log_fp : option string := fst opened in
            let publishers : list StatusPublisher := snd opened in
            connected <-
              (if dry_run then
                 io_ret (None, select_publisher publishers (StdoutStatusPublisher (mqtt cfg)))
               else
                 handle <- connect_mqtt (mqtt cfg) ;;
                 loop_start handle ;;
                 io_ret (Some handle,
                   select_publisher publishers (MqttStatusPublisher handle (mqtt cfg)))) ;;
            let client : option MqttClientHandle := fst connected in
            let publisher : StatusPublisher := snd connected in
            io_finally
              (let start_ts :=
                 match start_time sim_cfg with
                 | Some t => t
                 | None => env_now env
                 end in
               publish_init publisher start_ts locs ;;
               sim_timesteps publisher sim_cfg start_ts (py_range 0 steps) rng locs ;;
               io_ret tt)
              (match log_fp with
               | Some fp => fp_close fp
               | None => io_ret tt
               end ;;
               match client with
               | Some handle => io_finally (loop_stop handle) (disconnect handle)
               | None => io_ret tt
               end)
        end
    end.

End Driver.

(** ** Consumer side: reading status events back *)

Inductive PyFloat : Type := FFinite (q : Q) | FInf | FNegInf | FNaN.

(** A decoded JSON document. *)
Inductive JValue : Type :=
  | JNull
  | JBool (b : bool)
  | JInt (n : Z)
  | JFloat (f : PyFloat)
  | JString (s : string)
  | JList (items : list JValue)
  | JDict (entries : gmap string JValue).

(** The library functions the consumer calls: [json.loads] ([None] when it
    raises), [int] on a string ([None] for [ValueError]), [str] on a value
    that is not a string, [datetime.fromisoformat] followed by
    [astimezone(timezone.utc)] ([None] when either raises), and [str.strip],
    which removes the Unicode white space at both ends. *)
Record PyLib : Type := mkPyLib {
  json_loads : string -> option JValue;
  int_of_str : string -> option Z;
  repr_of : JValue -> string;
  fromisoformat_utc : string -> option Z;
  py_strip : string -> string
}.

(** [dashboard_data.StatusEvent] *)
Record StatusEvent : Type := mkStatusEvent {
  ev_ts : Z;
  ev_location_id : string;
  ev_container : string;
  ev_fill_pct : Z;
  ev_timestep_index : Z;
  ev_event : string
}.

Definition result_bind {A B : Type} (r : Result A) (k : A -> Result B) : Result B :=
  match r with
  | Ok a => k a
  | Raise e => Raise e
  end.

Notation "x <~ r ;; k" := (result_bind r (fun x => k))
  (at level 100, r at next level, right associativity).

(** [value[:-1] + "+00:00" if value.endswith("Z") else value] *)
Fixpoint utc_suffix (value : string) : string :=
  match value with
  | EmptyString => EmptyString
  | String a EmptyString =>
      if Ascii.eqb a "Z" then "+00:00" else value
  | String a rest => String a (utc_suffix rest)
  end.

(** Python truthiness of a decoded value. *)
Definition py_truthy (v : JValue) : bool :=
  match v with
  | JNull => false
  | JBool b => b
  | JInt n => negb (n =? 0)
  | JFloat (FFinite q) => negb (Qeq_bool q 0)
  | JFloat _ => true
  | JString s => negb (String.eqb s "")
  | JList items => match items with [] => false | _ :: _ => true end
  | JDict entries => match map_to_list entries with [] => false | _ :: _ => true end
  end.

Section Consumer.
Context (lib : PyLib).

(** [str(v)] *)
Definition py_str (v : JValue) : string :=
  match v with
  | JString s => s
  | _ => repr_of lib v
  end.

(** [int(v)] *)
Definition py_int (v : JValue) : Result Z :=
  match v with
  | JInt n => Ok n
  | JBool b => Ok (if b then 1 else 0)
  | JFloat (FFinite q) => Ok (Z.quot (Qnum q) (Z.pos (Qden q)))
  | JFloat FNaN => Raise (ValueError "cannot convert float NaN to integer")
  | JFloat _ => Raise OverflowError
  | JString s =>
      match int_of_str lib s with
      | Some n => Ok n
      | None => Raise (ValueError "invalid literal for int()")
      end
  | JNull | JList _ | JDict _ => Raise TypeError
  end.

(** Parse simulator/dashboard timestamps into UTC datetimes (a decoded JSON
    value is never a [datetime]). *)
Definition parse_ts (value : JValue) : Result Z :=
  match value with
  | JString s =>
      match fromisoformat_utc lib (utc_suffix s) with
      | Some t => Ok t
      | None => Raise (ValueError "Invalid isoformat string")
      end
  | _ => Raise (ValueError "ts must be a string")
  end.

(** [payload[key]] *)
Definition dict_item (payload : gmap string JValue) (key : string) : Result JValue :=
  match payload !! key with
  | Some v => Ok v
  | None => Raise (KeyError key)
  end.

Definition event_from_payload (payload : gmap string JValue) : Result StatusEvent :=
  ts_raw <~ dict_item payload "ts" ;;
  ts <~ parse_ts ts_raw ;;
  location_raw <~ dict_item payload "location_id" ;;
  let location_id := py_str location_raw in
  container_raw <~ dict_item payload "container" ;;
  let container := py_str container_raw in
  fill_raw <~ dict_item payload "fill_pct" ;;
  fill_pct <~ py_int fill_raw ;;
  let timestep_raw := default (JInt 0) (payload !! "timestep_index") in
  timestep_index <~
    match py_int timestep_raw with
    | Ok n => Ok n
    | Raise TypeError => Ok 0
    | Raise (ValueError _) => Ok 0
    | Raise e => Raise e
    end ;;
  let event_raw := default JNull (payload !! "event") in
  let event := if py_truthy event_raw then py_str event_raw else "status" in
  Ok (mkStatusEvent ts location_id container fill_pct timestep_index event).

(** One iteration of the loop of [read_jsonl_incremental]: the payload that
    is appended, if any. *)
Definition payload_of_line (line : string) : option (gmap string JValue) :=
  let line := py_strip lib line in
  if String.eqb line "" then None
  else
    match json_loads lib line with
    | Some (JDict obj) =>
        match obj !! "payload" with
        | Some (JDict payload) => Some payload
        | _ => None
        end
    | Some _ => None
    | None => None
    end.

Fixpoint read_loop (new_lines : list string) (payloads : list (gmap string JValue))
  : list (gmap string JValue) :=
  match new_lines with
  | [] => payloads
  | line :: rest =>
      match payload_of_line line with
      | Some payload => read_loop rest (payloads ++ [payload])
      | None => read_loop rest payloads
      end
  end.

(** A file system, as the block
    [with open(path, "r", encoding="utf-8") as f: f.seek(offset);
    new_lines = f.readlines(); new_offset = f.tell()] sees it: the lines read
    from the byte offset to the end and the offset reached, or the exception
    the block raises ([FileNotFoundError] for a missing file,
    [UnicodeDecodeError] for bytes that are not UTF-8, [ValueError] for a
    negative offset, [OSError] otherwise). *)
Definition FileSystem : Type := string -> Z -> Result (list string * Z).

(** Read new JSONL lines from [path] starting at byte offset. *)
Definition read_jsonl_incremental (fs : FileSystem) (path : string) (offset : Z)
  : Result (list (gmap string JValue) * Z) :=
  match fs path offset with
  | Raise e => Raise e
  | Ok (new_lines, new_offset) => Ok (read_loop new_lines [], new_offset)
  end.

(** The loop over [new_payloads] in the dashboard's [main]. *)
Fixpoint events_loop (new_payloads : list (gmap string JValue))
  (new_events : list StatusEvent) : list StatusEvent :=
  match new_payloads with
  | [] => new_events
  | payload :: rest =>
      match event_from_payload payload with
      | Ok ev => events_loop rest (new_events ++ [ev])
      | Raise _ => events_loop rest new_events
      end
  end.

(** The log-file branch of the dashboard's [main]: the new events and the
    log offset kept for the next refresh. *)
Definition dashboard_read_log (fs : FileSystem) (log_path : string) (log_offset : Z)
  : Result (list StatusEvent * Z) :=
  match read_jsonl_incremental fs log_path log_offset with
  | Ok (payloads, new_offset) => Ok (events_loop payloads [], new_offset)
  | Raise FileNotFoundError => Ok (events_loop [] [], log_offset)
  | Raise e => Raise e
  end.

(** The event a log line contributes, if any. *)
Definition event_of_line (line : string) : option StatusEvent :=
  match payload_of_line line with
  | Some payload =>
      match event_from_payload payload with
      | Ok ev => Some ev
      | Raise _ => None
      end
  | None => None
  end.

End Consumer.

(** ** Fixtures for concrete runs *)

(** A scripted generator: the tape of values still to be drawn.  [random()]
    returns the next value; [choice] scales the next value to an index; an
    exhausted tape yields zeros. *)
Definition scripted_random (g : list Q) : Q * list Q :=
  match g with
  | [] => (0%Q, [])
  | x :: g' => (x, g')
  end.

Definition scripted_randbelow (n : nat) (g : list Q) : nat * list Q :=
  match g with
  | [] => (0%nat, [])
  | x :: g' => ((Z.to_nat (Qfloor (x * inject_Z (Z.of_nat n))) mod n)%nat, g')
  end.

Definition scripted_seed (s : Z) : list Q :=
  (fun k => Qmake ((s * 7 + k * 37) mod 100) 100) <$> seqZ 0 64.

#[export] Instance scripted_source : RandomSource (list Q).
Proof.
  refine {| rs_seed := scripted_seed;
            rs_random := scripted_random;
            rs_randbelow := scripted_randbelow |}.
  intros n g Hn. destruct g as [|x g']; simpl; [exact Hn|].
  apply Nat.mod_upper_bound. lia.
Defined.

Definition scripted (tape : list Q) : Rng (list Q) := mkRng tape 0.

Definition demo_sim_cfg : SimulationConfig :=
  mkSimulationConfig 15 1 2 10 false 0 (Some 0) (Some 42)
    [mkSimulationLocationConfig "a" 55 12].

Definition demo_mqtt_cfg : MqttConfig :=
  mkMqttConfig "localhost" 1883 false None None "simcity" 60 "simulated-city".

Definition demo_location (l c r : Z) : LocationState :=
  mkLocationState "a" 55 12 (mkContainerState l) (mkContainerState c) (mkContainerState r).

Definition empty_world : World := mkWorld [] ∅ [].

(** ** Vocabulary of the statements *)

(** [location] with the fill of container [c] set to [v], all else kept. *)
Definition with_fill (location : LocationState) (c : ContainerName) (v : Z)
  : LocationState :=
  match c with
  | Left => mkLocationState (location_id location) (lat location) (lon location)
              (mkContainerState v) (center location) (right location)
  | Center => mkLocationState (location_id location) (lat location) (lon location)
              (left location) (mkContainerState v) (right location)
  | Right => mkLocationState (location_id location) (lat location) (lon location)
              (left location) (center location) (mkContainerState v)
  end.

(** Fill levels of the three containers all lie in [[0, 100]]. *)
Definition fills_in_range (loc : LocationState) : Prop :=
  forall c : ContainerName, 0 <= fill_pct (get_container loc c) <= 100.

(** No container of [loc'] holds less than in [loc]. *)
Definition fills_not_below (loc loc' : LocationState) : Prop :=
  forall c : ContainerName,
    fill_pct (get_container loc c) <= fill_pct (get_container loc' c).

(** [act] performed [k] times in a row. *)
Fixpoint io_times (k : nat) (act : IO unit) : IO unit :=
  match k with
  | O => io_ret tt
  | S k' => act ;; io_times k' act
  end.

(** What one payload contributes to the dashboard's event list. *)
Definition event_of_payload (lib : PyLib) (payload : gmap string JValue)
  : option StatusEvent :=
  match event_from_payload lib payload with
  | Ok ev => Some ev
  | Raise _ => None
  end.

(** ** Further fixtures: worlds, configurations and a concrete log *)


Definition demo_msg : StatusMsg :=
  mkStatusMsg 0 (demo_location 0 10 0) Center 10 4 "status".

Definition coarse_sim_cfg : SimulationConfig :=
  mkSimulationConfig 15 1 25 10 false 0 (Some 0) (Some 42)
    [mkSimulationLocationConfig "a" 55 12].

(** A connection that always fails, for runs that never connect. *)
Definition no_broker (mqtt_cfg : MqttConfig) : IO MqttClientHandle :=
  io_raise (ConnectionError "no broker").

Definition demo_app_cfg : AppConfig := mkAppConfig demo_mqtt_cfg (Some demo_sim_cfg).

Definition coarse_app_cfg : AppConfig := mkAppConfig demo_mqtt_cfg (Some coarse_sim_cfg).

(** A configuration without a seed: the generator comes from the
    environment. *)
Definition unseeded_app_cfg : AppConfig :=
  mkAppConfig demo_mqtt_cfg
    (Some (mkSimulationConfig 15 (1 # 2) 25 10 false 0 (Some 0) None
             [mkSimulationLocationConfig "a" 55 12])).

(** The container, fill, timestep index, kind and timestamp of a line. *)
Definition line_summary (l : Line) : string * Z * Z * string * Z :=
  (p_container (snd l), p_fill_pct (snd l), p_timestep_index (snd l),
   p_event (snd l), p_ts (snd l)).

Definition dq : string := String (ascii_of_nat 34) EmptyString.

Definition quoted (s : string) : string := dq +:+ s +:+ dq.

Definition newline : string := String (ascii_of_nat 10) EmptyString.

(** A well-formed record, as the simulator logs it. *)
Definition line_ok : string :=
  String.concat ""
    ["{"; quoted "topic"; ": "; quoted "simulated-city/bins/a/left/status";
     ", "; quoted "payload"; ": {"; quoted "ts"; ": "; quoted "2026-02-18T18:26:17Z";
     ", "; quoted "location_id"; ": "; quoted "a";
     ", "; quoted "lat"; ": 55.0"; ", "; quoted "lon"; ": 12.0";
     ", "; quoted "container"; ": "; quoted "left";
     ", "; quoted "fill_pct"; ": 10";
     ", "; quoted "timestep_index"; ": 4";
     ", "; quoted "event"; ": "; quoted "status"; "}}"].

(** A record whose [location_id] is a number and whose [fill_pct] is a
    string, with neither [timestep_index] nor [event]. *)
Definition line_wrong_types : string :=
  String.concat ""
    ["{"; quoted "payload"; ": {"; quoted "ts"; ": "; quoted "2026-02-18T18:41:17Z";
     ", "; quoted "location_id"; ": 7";
     ", "; quoted "container"; ": "; quoted "left";
     ", "; quoted "fill_pct"; ": "; quoted "12"; "}}"].

(** A record without [ts]. *)
Definition line_no_ts : string :=
  String.concat ""
    ["{"; quoted "payload"; ": {"; quoted "location_id"; ": "; quoted "a";
     ", "; quoted "container"; ": "; quoted "left";
     ", "; quoted "fill_pct"; ": 10"; "}}"].

Definition doc_ok : JValue :=
  JDict (<["topic" := JString "simulated-city/bins/a/left/status"]>
        (<["payload" :=
             JDict (<["ts" := JString "2026-02-18T18:26:17Z"]>
                   (<["location_id" := JString "a"]>
                   (<["lat" := JFloat (FFinite 55)]>
                   (<["lon" := JFloat (FFinite 12)]>
                   (<["container" := JString "left"]>
                   (<["fill_pct" := JInt 10]>
                   (<["timestep_index" := JInt 4]>
                   (<["event" := JString "status"]> ∅))))))))]> ∅)).

Definition doc_wrong_types : JValue :=
  JDict {[ "payload" :=
    JDict (<["ts" := JString "2026-02-18T18:41:17Z"]>
          (<["location_id" := JInt 7]>
          (<["container" := JString "left"]>
          (<["fill_pct" := JString "12"]> ∅)))) ]}.

Definition doc_no_ts : JValue :=
  JDict {[ "payload" :=
    JDict (<["location_id" := JString "a"]>
          (<["container" := JString "left"]>
          (<["fill_pct" := JInt 10]> ∅))) ]}.

(** [str.isspace] on one ASCII character. *)
Definition is_space (a : ascii) : bool :=
  let n := nat_of_ascii a in
  ((9 <=? n)%nat && (n <=? 13)%nat) || ((28 <=? n)%nat && (n <=? 32)%nat).

Fixpoint ascii_lstrip (s : string) : string :=
  match s with
  | EmptyString => EmptyString
  | String a s' => if is_space a then ascii_lstrip s' else s
  end.

Fixpoint ascii_rstrip (s : string) : string :=
  match s with
  | EmptyString => EmptyString
  | String a s' =>
      match ascii_rstrip s' with
      | EmptyString => if is_space a then EmptyString else String a EmptyString
      | r => String a r
      end
  end.

(** [str.strip] on ASCII text, for the example library. *)
Definition ascii_strip (s : string) : string := ascii_rstrip (ascii_lstrip s).

(** The library functions on the inputs of this log: [json.loads] on its
    lines (anything else is not JSON here), [int] on ["12"], [str] on
    integers, the two timestamps, and [str.strip] on ASCII text. *)
Definition example_lib : PyLib :=
  mkPyLib
    (fun s =>
       if String.eqb s line_ok then Some doc_ok
       else if String.eqb s line_wrong_types then Some doc_wrong_types
       else if String.eqb s line_no_ts then Some doc_no_ts
       else None)
    (fun s => if String.eqb s "12" then Some 12 else None)
    (fun v => match v with JInt n => pretty n | _ => "" end)
    (fun s =>
       if String.eqb s "2026-02-18T18:26:17+00:00" then Some 1771439177000000
       else if String.eqb s "2026-02-18T18:41:17+00:00" then Some 1771440077000000
       else None)
    ascii_strip.

Definition example_lines : list string :=
  [line_ok +:+ newline; "not json" +:+ newline; newline;
   line_no_ts +:+ newline; line_wrong_types +:+ newline].

(** [f.readlines()] on ASCII text whose lines end in a newline character
    (and that holds no carriage return): the lines, each with its line end. *)
Fixpoint ascii_readlines (text : string) : list string :=
  match text with
  | EmptyString => []
  | String a rest =>
      if Ascii.eqb a (ascii_of_nat 10) then String a EmptyString :: ascii_readlines rest
      else
        match ascii_readlines rest with
        | [] => [String a EmptyString]
        | l :: ls => String a l :: ls
        end
  end.

Fixpoint string_drop (n : nat) (text : string) : string :=
  match n, text with
  | O, _ => text
  | S n', String _ rest => string_drop n' rest
  | S _, EmptyString => EmptyString
  end.

(** Reading an existing file of ASCII text from a byte offset: a negative
    offset is refused by [f.seek], an offset past the end reads nothing and
    stays where it is. *)
Definition ascii_file (text : string) (offset : Z) : Result (list string * Z) :=
  if offset <? 0 then Raise (ValueError "negative seek position")
  else Ok (ascii_readlines (string_drop (Z.to_nat offset) text),
           Z.max offset (Z.of_nat (String.length text))).

(** A file system with one file, of the given ASCII text. *)
Definition one_file (name text : string) : FileSystem :=
  fun path offset =>
    if String.eqb path name then ascii_file text offset
    else Raise FileNotFoundError.

Definition example_fs : FileSystem :=
  one_file "sim_status.jsonl" (String.concat "" example_lines).

(** ** Further code of the same modules *)

(** [dashboard_data.series_key]: [f"{location_id}.{container}"] *)
Definition series_key (location_id container : string) : string :=
  location_id +:+ "." +:+ container.



(** Read all payloads from a simulator JSONL log file. *)
Definition read_jsonl_all (lib : PyLib) (fs : FileSystem) (path : string)
  : Result (list (gmap string JValue)) :=
  payloads_offset <~ read_jsonl_incremental lib fs path 0 ;;
  Ok (fst payloads_offset).

(** The loop of [drain_queue] over [range(max_items)]: [q.get_nowait()] takes
    the head of the queue, and [queue.Empty] ends the loop. *)
Fixpoint drain_loop {A : Type} (rounds : list Z) (q items : list A) : list A * list A :=
  match rounds with
  | [] => (items, q)
  | _ :: later =>
      match q with
      | [] => (items, q)
      | x :: q' => drain_loop later q' (items ++ [x])
      end
  end.

(** [drain_queue(q, max_items)]: the items taken and the queue left. *)
Definition drain_queue {A : Type} (q : list A) (max_items : Z) : list A * list A :=
  drain_loop (py_range 0 max_items) q [].

(** The callback [on_message] of the MQTT listeners, on the decoded text of a
    message: a JSON object is put at the end of the queue, anything else is
    dropped. *)
Definition on_message (lib : PyLib) (payload_str : string)
  (q : list (gmap string JValue)) : list (gmap string JValue) :=
  match json_loads lib payload_str with
  | Some (JDict payload) => q ++ [payload]
  | Some _ => q
  | None => q
  end.

(** The MQTT branch of the dashboard's [main]: drain at most 5000 payloads
    and decode them. *)
Definition dashboard_read_mqtt (lib : PyLib) (q : list (gmap string JValue))
  : list StatusEvent * list (gmap string JValue) :=
  let (new_payloads, q') := drain_queue q 5000 in
  (events_loop lib new_payloads [], q').

(** [s.replace("+00:00", "Z")]: every occurrence, left to right. *)
Fixpoint replace_utc_offset (s : string) : string :=
  match s with
  | EmptyString => EmptyString
  | String "+" (String "0" (String "0" (String ":" (String "0" (String "0" rest))))) =>
      String "Z" (replace_utc_offset rest)
  | String a rest => String a (replace_utc_offset rest)
  end.

(** The dictionary [data] of [make_status_payload], as a JSON document;
    [isoformat ts] is [ts.astimezone(timezone.utc).isoformat()]. *)
Definition status_data (isoformat : Z -> string) (ts : Z) (location : LocationState)
  (container : ContainerName) (fill_pct timestep_index : Z) (event : string)
  : gmap string JValue :=
  <["ts" := JString (replace_utc_offset (isoformat ts))]>
  (<["location_id" := JString (location_id location)]>
  (<["lat" := JFloat (FFinite (lat location))]>
  (<["lon" := JFloat (FFinite (lon location))]>
  (<["container" := JString (container_str container)]>
  (<["fill_pct" := JInt fill_pct]>
  (<["timestep_index" := JInt timestep_index]>
  (<["event" := JString event]> ∅))))))).

(** The object that [JsonlFileStatusPublisher] writes on one line. *)
Definition jsonl_line_obj (isoformat : Z -> string) (mqtt_cfg : MqttConfig)
  (m : StatusMsg) : JValue :=
  JDict (<["topic" := JString (msg_topic mqtt_cfg m)]>
        (<["payload" :=
             JDict (status_data isoformat (m_ts m) (m_location m) (m_container m)
                      (m_fill_pct m) (m_timestep_index m) (m_event m))]> ∅)).

(** ** Vocabulary of the further statements *)

(** The world an outcome ends in, returned or raised. *)
Definition world_of {A : Type} (o : Outcome A) : World :=
  match o with
  | Returned _ w => w
  | Raised _ w => w
  end.

(** [Q] holds of the result and world when [m] returns from [w], [E] of the
    exception and world when it raises. *)
Definition io_post {A : Type} (m : IO A) (w : World)
  (Q : A -> World -> Prop) (E : PyExn -> World -> Prop) : Prop :=
  match m w with
  | Returned a w' => Q a w'
  | Raised e w' => E e w'
  end.

(** The line a publisher emits for a message. *)
Definition msg_line (mqtt_cfg : MqttConfig) (m : StatusMsg) : Line :=
  (msg_topic mqtt_cfg m, msg_payload m).

(** The lines of the initial statuses of [locs]. *)
Definition init_lines (mqtt_cfg : MqttConfig) (start_ts : Z) (locs : list LocationState)
  : list Line :=
  locs ≫= (fun loc =>
    (fun c => msg_line mqtt_cfg
                (mkStatusMsg start_ts loc c (fill_pct (get_container loc c)) (-1) "init"))
      <$> [Left; Center; Right]).

(** Sum of the three fills of a location. *)
Definition total_fill (loc : LocationState) : Z :=
  fill_pct (left loc) + fill_pct (center loc) + fill_pct (right loc).

(** No character of [s] is [a]. *)
Fixpoint lacks_char (a : ascii) (s : string) : bool :=
  match s with
  | EmptyString => true
  | String b s' => negb (Ascii.eqb a b) && lacks_char a s'
  end.

(** The state after one timestep over [locs], without the publishing: the
    locations stepped in order with one generator. *)
Fixpoint step_all {G : Type} `{RandomSource G} (rng : Rng G)
  (sim_cfg : SimulationConfig) (locs : list LocationState)
  : list LocationState * Rng G :=
  match locs with
  | [] => ([], rng)
  | loc :: rest =>
      let '(updated, _, rng1) := step_location rng sim_cfg loc in
      let (others, rng2) := step_all rng1 sim_cfg rest in
      (updated :: others, rng2)
  end.

(** The state after [n] timesteps, without the publishing. *)
Fixpoint step_rounds {G : Type} `{RandomSource G} (n : nat) (rng : Rng G)
  (sim_cfg : SimulationConfig) (locs : list LocationState)
  : list LocationState * Rng G :=
  match n with
  | O => (locs, rng)
  | S n' =>
      let (locs1, rng1) := step_all rng sim_cfg locs in
      step_rounds n' rng1 sim_cfg locs1
  end.

(** [loc] is the state of the configured location [site]. *)
Definition at_site (site : SimulationLocationConfig) (loc : LocationState) : Prop :=
  location_id loc = cfg_location_id site
  /\ lat loc = cfg_lat site
  /\ lon loc = cfg_lon site.

(** [l] is a status line of a run of [steps] timesteps started at
    [start_ts]: about a configured location and one of its containers, with
    a timestep index in [[0, steps)], the timestamp of that timestep and a
    fill in [[0, 100]]. *)
Definition status_line_ok (mqtt_cfg : MqttConfig) (sim_cfg : SimulationConfig)
  (start_ts steps : Z) (l : Line) : Prop :=
  exists (site : SimulationLocationConfig) (c : ContainerName) (idx fill : Z),
    site ∈ locations sim_cfg
    /\ 0 <= idx < steps
    /\ 0 <= fill <= 100
    /\ l = (topic mqtt_cfg
              ("bins/" +:+ cfg_location_id site +:+ "/" +:+ container_str c +:+ "/status"),
            mkStatusPayload
              (start_ts + timedelta_minutes (timestep_minutes sim_cfg * idx))
              (cfg_location_id site) (cfg_lat site) (cfg_lon site)
              (container_str c) fill idx "status").

(** [l'] is at the place of [l]: same id and coordinates. *)
Definition same_site (l l' : LocationState) : Prop :=
  location_id l' = location_id l /\ lat l' = lat l /\ lon l' = lon l.

(** The status line of container [c] of [loc'] at timestep [idx]. *)
Definition line_of (mqtt_cfg : MqttConfig) (ts idx : Z) (loc' : LocationState)
  (l : Line) : Prop :=
  exists c : ContainerName,
    l = msg_line mqtt_cfg
          (mkStatusMsg ts loc' c (fill_pct (get_container loc' c)) idx "status").

(** The run stops on a non-positive boundary with boundary publishing. *)
Definition bad_boundary (sim_cfg : SimulationConfig) (e : PyExn) : Prop :=
  e = ValueError "boundary_pct must be > 0"
  /\ status_boundary_pct sim_cfg <= 0
  /\ publish_every_deposit sim_cfg = false.

(** Timesteps of 4743360000 minutes (some 9018 years): the second timestamp
    of a run started in 1970 lies after the year 9999. *)
Definition far_future_cfg : AppConfig :=
  mkAppConfig demo_mqtt_cfg
    (Some (mkSimulationConfig 4743360000 1 25 10 false 0 (Some 0) (Some 42)
             [mkSimulationLocationConfig "a" 55 12])).

(** Every timestamp of a run of [steps] timesteps can be computed: none of
    the additions [start_ts + timedelta(...)] overflows. *)
Definition timestamps_ok (sim_cfg : SimulationConfig) (start_ts steps : Z) : Prop :=
  forall idx : Z,
    0 <= idx < steps ->
    exists ts : Z, timestep_ts start_ts (timestep_minutes sim_cfg) idx = Ok ts.

(** The run stops at a timestep whose timestamp cannot be computed. *)
Definition bad_timestamp (sim_cfg : SimulationConfig) (start_ts steps : Z) (e : PyExn)
  : Prop :=
  exists idx : Z,
    0 <= idx < steps
    /\ timestep_ts start_ts (timestep_minutes sim_cfg) idx = Raise e.

Definition zero_boundary_cfg : AppConfig :=
  mkAppConfig demo_mqtt_cfg
    (Some (mkSimulationConfig 15 1 25 0 false 0 (Some 0) (Some 42)
             [mkSimulationLocationConfig "a" 55 12])).

(** ** Properties of the boundary detector *)

(** The three literal cases of the test-suite. *)
Example boundaries_crossed_0_1 : boundaries_crossed 0 1 10 = Ok [].
Proof. reflexivity. Qed.
Example boundaries_crossed_9_10 : boundaries_crossed 9 10 10 = Ok [10].
Proof. reflexivity. Qed.
Example boundaries_crossed_19_31 : boundaries_crossed 19 31 10 = Ok [20; 30].
Proof. reflexivity. Qed.

Lemma py_range_length a b : length (py_range a b) = Z.to_nat (b - a).
Proof. unfold py_range. apply length_seqZ. Qed.

Lemma scaled_range_lookup (b m n : Z) (i : nat) :
  Z.of_nat i < n ->
  ((fun k => k * b) <$> seqZ m n) !! i = Some (b * (m + Z.of_nat i)).
Proof.
  intros Hi. rewrite list_lookup_fmap, lookup_seqZ_lt by exact Hi.
  simpl. f_equal. lia.
Qed.

Lemma scaled_range_sorted (b : Z) :
  0 < b -> forall (len : nat) (m : Z),
  StronglySorted Z.lt ((fun k => k * b) <$> seqZ m (Z.of_nat len)).
Proof.
  intros Hb. induction len as [|len IH]; intros m.
  - rewrite seqZ_nil by lia. constructor.
  - rewrite seqZ_cons by lia. rewrite fmap_cons.
    replace (Z.pred (Z.of_nat (S len))) with (Z.of_nat len) by lia.
    constructor; [apply IH|].
    apply Forall_fmap, Forall_seqZ. intros k Hk. simpl. nia.
Qed.

Lemma scaled_range_Forall (P : Z -> Prop) (b m n : Z) :
  (forall k, m <= k < m + n -> P (k * b)) ->
  Forall P ((fun k => k * b) <$> seqZ m n).
Proof.
  intros H. apply Forall_fmap, Forall_seqZ. intros k Hk. simpl. auto.
Qed.

(** C1: for [boundary_pct > 0] and [0 <= old <= new <= 100] the detector
    returns exactly the list [b*(ob+1), ..., b*nb] (given by its length and its
    [i]-th element), which is strictly increasing, made of multiples of
    [boundary_pct], each [> old] and [<= new], and empty iff the two buckets
    coincide. *)
Theorem boundaries_crossed_spec (old new b : Z) :
  0 < b -> 0 <= old -> old <= new -> new <= 100 ->
  let ob := old / b in
  let nb := new / b in
  exists l : list Z,
    boundaries_crossed old new b = Ok l
    /\ length l = Z.to_nat (nb - ob)
    /\ (forall i : nat, Z.of_nat i < nb - ob ->
          l !! i = Some (b * (ob + 1 + Z.of_nat i)))
    /\ (nb <= ob \/ last l = Some (b * nb))
    /\ StronglySorted Z.lt l
    /\ Forall (fun x => (b | x)) l
    /\ Forall (fun x => old < x <= new) l
    /\ (l = [] <-> ob = nb).
Proof.
  intros Hb Hold Hle Hnew ob nb.
  assert (Hmono : ob <= nb) by (apply Z.div_le_mono; lia).
  assert (Hob : b * ob <= old < b * ob + b).
  { pose proof (Z.mul_div_le old b Hb). pose proof (Z.mul_succ_div_gt old b Hb).
    fold ob in H, H0. lia. }
  assert (Hnb : b * nb <= new < b * nb + b).
  { pose proof (Z.mul_div_le new b Hb). pose proof (Z.mul_succ_div_gt new b Hb).
    fold nb in H, H0. lia. }
  unfold boundaries_crossed.
  destruct (Z.leb_spec b 0) as [?|_]; [lia|].
  fold ob nb.
  destruct (Z.leb_spec nb ob) as [Hno|Hyes].
  - assert (Heq : nb = ob) by lia.
    exists []. split; [reflexivity|].
    split; [rewrite Heq, Z.sub_diag; reflexivity|].
    split; [intros i Hi; lia|].
    split; [left; lia|].
    split; [constructor|].
    split; [constructor|].
    split; [constructor|].
    split; [intros _; lia | reflexivity].
  - unfold py_range. replace (nb + 1 - (ob + 1)) with (nb - ob) by lia.
    eexists. split; [reflexivity|].
    split; [rewrite length_fmap, length_seqZ; reflexivity|].
    split; [intros i Hi; apply scaled_range_lookup; exact Hi|].
    split.
    { right. rewrite last_lookup, length_fmap, length_seqZ.
      rewrite scaled_range_lookup by lia. f_equal. f_equal. lia. }
    split.
    { rewrite <- (Z2Nat.id (nb - ob)) by lia. apply scaled_range_sorted, Hb. }
    split.
    { apply scaled_range_Forall. intros k _. exists k. reflexivity. }
    split.
    { apply scaled_range_Forall. intros k Hk. nia. }
    split.
    + intros Hnil. apply (f_equal length) in Hnil.
      rewrite length_fmap, length_seqZ in Hnil. simpl in Hnil. lia.
    + intros ->. lia.
Qed.

Lemma boundaries_crossed_spec_witness :
  exists l : list Z,
    boundaries_crossed 19 31 10 = Ok l
    /\ length l = Z.to_nat (31 / 10 - 19 / 10)
    /\ (forall i : nat, Z.of_nat i < 31 / 10 - 19 / 10 ->
          l !! i = Some (10 * (19 / 10 + 1 + Z.of_nat i)))
    /\ (31 / 10 <= 19 / 10 \/ last l = Some (10 * (31 / 10)))
    /\ StronglySorted Z.lt l
    /\ Forall (fun x => (10 | x)) l
    /\ Forall (fun x => 19 < x <= 31) l
    /\ (l = [] <-> 19 / 10 = 31 / 10).
Proof. apply (boundaries_crossed_spec 19 31 10); lia. Defined.

(** C8: the detector raises [ValueError] exactly when [boundary_pct <= 0];
    with a positive boundary it returns a list for all fill values. *)
Theorem boundaries_crossed_raises_iff (old new b : Z) :
  (b <= 0 ->
     boundaries_crossed old new b = Raise (ValueError "boundary_pct must be > 0"))
  /\ (0 < b -> exists l : list Z, boundaries_crossed old new b = Ok l).
Proof.
  unfold boundaries_crossed. split; intros Hb.
  - destruct (Z.leb_spec b 0); [reflexivity | lia].
  - destruct (Z.leb_spec b 0); [lia|].
    destruct (_ <=? _); eexists; reflexivity.
Qed.


(** ** Properties of the random source and the selector *)

Section EngineFacts.
Context {G : Type} `{RandomSource G}.

Lemma rng_random_draws (rng : Rng G) :
  draws (snd (rng_random rng)) = S (draws rng).
Proof. unfold rng_random. destruct (rs_random (gen rng)). reflexivity. Qed.

Lemma rng_choice_draws {A : Type} (rng : Rng G) (x : A) (xs : list A) :
  draws (snd (rng_choice rng x xs)) = S (draws rng).
Proof. unfold rng_choice. destruct (rs_randbelow _ _). reflexivity. Qed.

Lemma rng_choice_In {A : Type} (rng : Rng G) (x : A) (xs : list A) :
  In (fst (rng_choice rng x xs)) (x :: xs).
Proof.
  unfold rng_choice.
  pose proof (rs_randbelow_lt (S (length xs)) (gen rng) (Nat.lt_0_succ _)) as Hlt.
  destruct (rs_randbelow _ _) as [i g']. simpl in *.
  destruct i as [|i]; [now left|].
  right. apply nth_In. lia.
Qed.

Lemma pick_preferred_draws (rng : Rng G) :
  draws (snd (_pick_preferred_container rng)) = S (draws rng).
Proof.
  unfold _pick_preferred_container.
  pose proof (rng_random_draws rng) as Hd.
  destruct (rng_random rng) as [roll rng1]. simpl in Hd.
  destruct (Qltb roll (1 # 4)); [exact Hd|].
  destruct (Qltb roll (3 # 4)); exact Hd.
Qed.

End EngineFacts.

Lemma Qltb_lt (x y : Q) : Qltb x y = true <-> (x < y)%Q.
Proof.
  unfold Qltb. rewrite negb_true_iff, <- not_true_iff_false, Qle_bool_iff.
  split; [apply Qnot_le_lt | apply Qlt_not_le].
Qed.

Lemma available_containers_In (l c r : ContainerState) (name : ContainerName) :
  In name (available_containers l c r) <->
  is_full (containers_get l c r name) = false.
Proof.
  unfold available_containers, containers_items. simpl.
  destruct (is_full l) eqn:El, (is_full c) eqn:Ec, (is_full r) eqn:Er;
    destruct name; simpl; rewrite ?El, ?Ec, ?Er;
    split; intros Hx; try discriminate; try reflexivity;
    try (repeat (destruct Hx as [Hx|Hx]; try discriminate); contradiction);
    auto.
Qed.

Lemma available_containers_nil (l c r : ContainerState) :
  available_containers l c r = [] <->
  is_full l && is_full c && is_full r = true.
Proof.
  unfold available_containers, containers_items. simpl.
  destruct (is_full l), (is_full c), (is_full r); simpl;
    split; intros Hx; try discriminate; reflexivity.
Qed.

Lemma with_fill_same (loc : LocationState) (c : ContainerName) (v : Z) :
  get_container (with_fill loc c v) c = mkContainerState v.
Proof. destruct c; reflexivity. Qed.

Lemma with_fill_other (loc : LocationState) (c c' : ContainerName) (v : Z) :
  c' <> c -> get_container (with_fill loc c v) c' = get_container loc c'.
Proof. intros Hne. destruct c, c'; try reflexivity; contradiction. Qed.

Section EngineTheorems.
Context {G : Type} `{RandomSource G}.

(** The selector in terms of its draws: the preferred container if it is not
    full, otherwise a member of the available ones, otherwise nothing. *)
Lemma choose_container_cases (rng : Rng G) (l c r : ContainerState) :
  let preferred := fst (_pick_preferred_container rng) in
  let rng1 := snd (_pick_preferred_container rng) in
  (is_full (containers_get l c r preferred) = false
     /\ choose_container rng l c r = (Some preferred, rng1))
  \/ (is_full (containers_get l c r preferred) = true
     /\ available_containers l c r = []
     /\ choose_container rng l c r = (None, rng1))
  \/ (is_full (containers_get l c r preferred) = true
     /\ exists name names,
          available_containers l c r = name :: names
          /\ choose_container rng l c r =
               (Some (fst (rng_choice rng1 name names)), snd (rng_choice rng1 name names))).
Proof.
  intros preferred rng1. unfold choose_container.
  subst preferred rng1.
  destruct (_pick_preferred_container rng) as [preferred rng1]. simpl.
  destruct (is_full (containers_get l c r preferred)) eqn:Efull; simpl.
  - destruct (available_containers l c r) as [|name names] eqn:Eav.
    + right. left. auto.
    + right. right. split; [reflexivity|]. exists name, names.
      split; [reflexivity|]. destruct (rng_choice rng1 name names). reflexivity.
  - left. auto.
Qed.

(** One step either leaves the location alone or deposits into exactly one
    container. *)
Lemma step_location_cases (rng : Rng G) (sim_cfg : SimulationConfig)
  (loc : LocationState) :
  let '(loc', dep, _) := step_location rng sim_cfg loc in
  (loc' = loc /\ dep = no_deposit)
  \/ exists c : ContainerName,
       let old := fill_pct (get_container loc c) in
       let new := Z.min 100 (old + bag_fill_delta_pct sim_cfg) in
       loc' = with_fill loc c new
       /\ dep = mkDepositResult true (Some c) (Some old) (Some new).
Proof.
  unfold step_location.
  destruct (rng_random rng) as [roll rng1].
  destruct (negb (Qltb roll (arrival_prob sim_cfg))); [left; auto|].
  destruct (choose_container rng1 (left loc) (center loc) (right loc)) as [chosen rng2].
  destruct chosen as [[| |]|]; simpl.
  - right. exists Left. auto.
  - right. exists Center. auto.
  - right. exists Right. auto.
  - left. auto.
Qed.

End EngineTheorems.

(** C5: for every random source and every three containers the selector
    returns nothing exactly when all three are full, and a container it
    returns is never full. *)
Theorem choose_container_none_iff_all_full :
  forall (G : Type) (RS : RandomSource G) (rng : Rng G) (l c r : ContainerState),
    let res := fst (choose_container rng l c r) in
    (res = None <-> is_full l = true /\ is_full c = true /\ is_full r = true)
    /\ (forall name : ContainerName,
          res = Some name -> is_full (containers_get l c r name) = false).
Proof.
  intros G RS rng l c r res. subst res.
  destruct (choose_container_cases rng l c r)
    as [[Hfree ->] | [[Hfull [Hnil ->]] | [Hfull [name [names [Hav ->]]]]]]; simpl.
  - split.
    + split; [discriminate|]. intros (Hl & Hc & Hr).
      destruct (fst (_pick_preferred_container rng)); simpl in Hfree; congruence.
    + intros name [= <-]. exact Hfree.
  - split.
    + split; [|reflexivity]. intros _.
      apply available_containers_nil in Hnil.
      destruct (is_full l), (is_full c), (is_full r); try discriminate; auto.
    + intros name [=].
  - pose proof (rng_choice_In (snd (_pick_preferred_container rng)) name names) as Hin.
    rewrite <- Hav in Hin. apply available_containers_In in Hin.
    split.
    + split; [discriminate|]. intros (Hl & Hc & Hr).
      assert (Hnil : available_containers l c r = []).
      { apply available_containers_nil. rewrite Hl, Hc, Hr. reflexivity. }
      congruence.
    + intros nm [= <-]. exact Hin.
Qed.

(** C3 (as amended): one call of [step_location] makes one call to the random
    source when no arrival occurs, two when an arrival finds the preferred
    container not full or all three containers full, and three when the
    preferred container is full and another one is not (arrival roll,
    preference roll, fallback choice); so between one and three in all. *)
Theorem step_location_draws :
  forall (G : Type) (RS : RandomSource G) (rng : Rng G)
         (sim_cfg : SimulationConfig) (loc : LocationState),
    let roll := fst (rng_random rng) in
    let rng1 := snd (rng_random rng) in
    let arrived := Qltb roll (arrival_prob sim_cfg) in
    let preferred := fst (_pick_preferred_container rng1) in
    let rng' := snd (step_location rng sim_cfg loc) in
    draws rng' =
      (draws rng +
         (if negb arrived then 1
          else if negb (is_full (get_container loc preferred)) then 2
          else if is_full (left loc) && is_full (center loc) && is_full (right loc)
               then 2 else 3))%nat
    /\ (draws rng + 1 <= draws rng' <= draws rng + 3)%nat.
Proof.
  intros G RS rng sim_cfg loc roll rng1 arrived preferred rng'.
  assert (Heq : draws rng' =
      (draws rng +
         (if negb arrived then 1
          else if negb (is_full (get_container loc preferred)) then 2
          else if is_full (left loc) && is_full (center loc) && is_full (right loc)
               then 2 else 3))%nat).
  { subst rng' preferred arrived roll rng1. unfold step_location.
    pose proof (rng_random_draws rng) as Hd1.
    destruct (rng_random rng) as [roll rng1]. simpl in *.
    destruct (negb (Qltb roll (arrival_prob sim_cfg))); simpl; [lia|].
    pose proof (pick_preferred_draws rng1) as Hd2.
    assert (Hget : forall n, containers_get (left loc) (center loc) (right loc) n
                             = get_container loc n) by (intros []; reflexivity).
    destruct (choose_container_cases rng1 (left loc) (center loc) (right loc))
      as [[Hfree Hc] | [[Hfull [Hnil Hc]] | [Hfull [name [names [Hav Hc]]]]]];
      rewrite Hc; rewrite Hget in *.
    - rewrite Hfree. simpl.
      destruct (fst (_pick_preferred_container rng1)); simpl; lia.
    - rewrite Hfull. simpl.
      apply available_containers_nil in Hnil. rewrite Hnil. simpl. lia.
    - rewrite Hfull. simpl.
      assert (Hnot : is_full (left loc) && is_full (center loc) && is_full (right loc)
                     = false).
      { apply not_true_iff_false. intros Hall.
        apply available_containers_nil in Hall. congruence. }
      rewrite Hnot.
      pose proof (rng_choice_draws (snd (_pick_preferred_container rng1)) name names)
        as Hd3.
      destruct (fst (rng_choice (snd (_pick_preferred_container rng1)) name names));
        simpl; lia. }
  split; [exact Heq|].
  rewrite Heq.
  destruct (negb arrived); [lia|].
  destruct (negb (is_full (get_container loc preferred))); [lia|].
  destruct (is_full (left loc) && is_full (center loc) && is_full (right loc)); lia.
Qed.

(** C3, the claim as stated fails: with the centre container full and
    preferred, an arrival costs three calls to the random source. *)
Lemma step_location_three_draws :
  step_location (scripted [0; 1 # 2; 0]%Q) demo_sim_cfg (demo_location 0 100 0)
  = (demo_location 2 100 0,
     mkDepositResult true (Some Left) (Some 0) (Some 2),
     mkRng [] 3).
Proof. vm_compute. reflexivity. Qed.

(** C6: when an arrival occurs and the selector returns container [c], the
    step returns the input location with only [c] replaced, its fill being
    [min(100, old + bag_fill_delta_pct)], and a deposit result naming [c], the
    old and the new fill. *)
Theorem step_location_deposit_frame :
  forall (G : Type) (RS : RandomSource G) (rng rng1 rng2 : Rng G) (roll : Q)
         (sim_cfg : SimulationConfig) (loc : LocationState) (c : ContainerName),
    rng_random rng = (roll, rng1) ->
    (roll < arrival_prob sim_cfg)%Q ->
    choose_container rng1 (left loc) (center loc) (right loc) = (Some c, rng2) ->
    let old := fill_pct (get_container loc c) in
    let new := Z.min 100 (old + bag_fill_delta_pct sim_cfg) in
    exists loc' : LocationState,
      step_location rng sim_cfg loc
        = (loc', mkDepositResult true (Some c) (Some old) (Some new), rng2)
      /\ location_id loc' = location_id loc
      /\ lat loc' = lat loc
      /\ lon loc' = lon loc
      /\ get_container loc' c = mkContainerState new
      /\ (forall c' : ContainerName,
            c' <> c -> get_container loc' c' = get_container loc c').
Proof.
  intros G RS rng rng1 rng2 roll sim_cfg loc c Hroll Harr Hchoose old new.
  exists (with_fill loc c new).
  split.
  - unfold step_location. rewrite Hroll.
    apply Qltb_lt in Harr. rewrite Harr. simpl. rewrite Hchoose.
    subst old new. destruct c; reflexivity.
  - split; [destruct c; reflexivity|].
    split; [destruct c; reflexivity|].
    split; [destruct c; reflexivity|].
    split; [apply with_fill_same|].
    intros c' Hne. apply with_fill_other, Hne.
Qed.

Lemma step_location_deposit_frame_witness :
  exists loc' : LocationState,
    step_location (scripted [0; 1 # 2]%Q) demo_sim_cfg (demo_location 0 98 7)
      = (loc', mkDepositResult true (Some Center) (Some 98) (Some 100), mkRng [] 2)
    /\ location_id loc' = "a"
    /\ lat loc' = 55%Q
    /\ lon loc' = 12%Q
    /\ get_container loc' Center = mkContainerState 100
    /\ (forall c' : ContainerName,
          c' <> Center -> get_container loc' c' = get_container (demo_location 0 98 7) c').
Proof.
  apply (step_location_deposit_frame (list Q) scripted_source
           (scripted [0; 1 # 2]%Q) (mkRng [1 # 2]%Q 1) (mkRng [] 2) 0%Q
           demo_sim_cfg (demo_location 0 98 7) Center).
  - reflexivity.
  - reflexivity.
  - reflexivity.
Defined.

Section FillInvariant.
Context {G : Type} `{RandomSource G}.

Lemma step_location_keeps_range (rng : Rng G) (sim_cfg : SimulationConfig)
  (loc : LocationState) :
  fills_in_range loc -> 0 <= bag_fill_delta_pct sim_cfg ->
  fills_in_range (fst (fst (step_location rng sim_cfg loc)))
  /\ fills_not_below loc (fst (fst (step_location rng sim_cfg loc))).
Proof.
  intros Hrange Hdelta.
  pose proof (step_location_cases rng sim_cfg loc) as Hcases.
  destruct (step_location rng sim_cfg loc) as [[loc' dep] rng']. simpl.
  destruct Hcases as [[-> _] | [c [-> _]]].
  - split; [exact Hrange|]. intros c. lia.
  - split; intros c'; pose proof (Hrange c) as Hc; pose proof (Hrange c') as Hc';
      destruct (decide (c' = c)) as [->|Hne];
      rewrite ?with_fill_same, ?with_fill_other by exact Hne; simpl; lia.
Qed.

Lemma step_location_n_keeps_range (n : nat) :
  forall (rng : Rng G) (sim_cfg : SimulationConfig) (loc : LocationState),
    fills_in_range loc -> 0 <= bag_fill_delta_pct sim_cfg ->
    fills_in_range (fst (step_location_n n rng sim_cfg loc))
    /\ fills_not_below loc (fst (step_location_n n rng sim_cfg loc)).
Proof.
  induction n as [|n IH]; intros rng sim_cfg loc Hrange Hdelta; simpl.
  - split; [exact Hrange|]. intros c. lia.
  - destruct (step_location_keeps_range rng sim_cfg loc Hrange Hdelta) as [Hr1 Hm1].
    destruct (step_location rng sim_cfg loc) as [[updated dep] rng']. simpl in *.
    destruct (IH rng' sim_cfg updated Hr1 Hdelta) as [Hr2 Hm2].
    split; [exact Hr2|].
    intros c. specialize (Hm1 c). specialize (Hm2 c). lia.
Qed.

End FillInvariant.

(** C7: with all three fills in [[0, 100]] and a non-negative bag delta, the
    location returned by [step_location] has all fills in [[0, 100]] and none
    below its previous value; the same holds after any number of steps. *)
Theorem step_location_fill_bounded_monotone :
  forall (G : Type) (RS : RandomSource G) (rng : Rng G)
         (sim_cfg : SimulationConfig) (loc : LocationState),
    (forall c : ContainerName, 0 <= fill_pct (get_container loc c) <= 100) ->
    0 <= bag_fill_delta_pct sim_cfg ->
    (forall c : ContainerName,
       let loc' := fst (fst (step_location rng sim_cfg loc)) in
       0 <= fill_pct (get_container loc' c) <= 100
       /\ fill_pct (get_container loc c) <= fill_pct (get_container loc' c))
    /\ (forall (n : nat) (c : ContainerName),
          let loc_n := fst (step_location_n n rng sim_cfg loc) in
          0 <= fill_pct (get_container loc_n c) <= 100
          /\ fill_pct (get_container loc c) <= fill_pct (get_container loc_n c)).
Proof.
  intros G RS rng sim_cfg loc Hrange Hdelta. split.
  - intros c loc'. subst loc'.
    destruct (step_location_keeps_range rng sim_cfg loc Hrange Hdelta) as [Hr Hm].
    split; [apply Hr | apply Hm].
  - intros n c loc_n. subst loc_n.
    destruct (step_location_n_keeps_range n rng sim_cfg loc Hrange Hdelta) as [Hr Hm].
    split; [apply Hr | apply Hm].
Qed.

Lemma step_location_fill_bounded_monotone_witness :
  (forall c : ContainerName,
     let loc' :=
       fst (fst (step_location (scripted [0; 1 # 2]%Q) demo_sim_cfg
                   (demo_location 0 99 7))) in
     0 <= fill_pct (get_container loc' c) <= 100
     /\ fill_pct (get_container (demo_location 0 99 7) c)
        <= fill_pct (get_container loc' c))
  /\ (forall (n : nat) (c : ContainerName),
        let loc_n :=
          fst (step_location_n n (scripted [0; 1 # 2]%Q) demo_sim_cfg
                 (demo_location 0 99 7)) in
        0 <= fill_pct (get_container loc_n c) <= 100
        /\ fill_pct (get_container (demo_location 0 99 7) c)
           <= fill_pct (get_container loc_n c)).
Proof.
  apply (step_location_fill_bounded_monotone (list Q) scripted_source
           (scripted [0; 1 # 2]%Q) demo_sim_cfg (demo_location 0 99 7)).
  - intros c. destruct c; simpl; lia.
  - simpl. lia.
Defined.

Example step_location_clamps :
  fst (fst (step_location (scripted [0; 1 # 2]%Q) demo_sim_cfg (demo_location 0 99 7)))
  = demo_location 0 100 7.
Proof. vm_compute. reflexivity. Qed.

(** ** Properties of the publishers *)

Lemma io_for_app {A : Type} (xs ys : list A) (body : A -> IO unit) (w : World) :
  io_for (xs ++ ys) body w =
  match io_for xs body w with
  | Returned _ w1 => io_for ys body w1
  | Raised e w1 => Raised e w1
  end.
Proof.
  revert w. induction xs as [|x xs IH]; intros w; simpl; [reflexivity|].
  unfold io_bind. destruct (body x w) as [[] w1 | e w1]; [apply IH | reflexivity].
Qed.

Lemma publish_status_tee (publishers : list StatusPublisher) (m : StatusMsg) (w : World) :
  publish_status (TeeStatusPublisher publishers) m w = tee_publish publishers m w.
Proof.
  unfold tee_publish. simpl. revert w.
  induction publishers as [|q qs IH]; intros w; simpl; [reflexivity|].
  unfold io_bind. destruct (publish_status q m w); [apply IH | reflexivity].
Qed.




(** ** Properties of the driver *)

Lemma io_for_const {A : Type} (xs : list A) (act : IO unit) (w : World) :
  io_for xs (fun _ => act) w = io_times (length xs) act w.
Proof.
  revert w. induction xs as [|x xs IH]; intros w; simpl; [reflexivity|].
  unfold io_bind. destruct (act w); [apply IH | reflexivity].
Qed.

Lemma io_times_print (k : nat) (l : Line) (w : World) :
  io_times k (print_line l) w
  = Returned tt (mkWorld (w_stdout w ++ replicate k l) (w_files w) (w_broker w)).
Proof.
  revert w. induction k as [|k IH]; intros w; simpl.
  - rewrite app_nil_r. destruct w; reflexivity.
  - unfold io_bind, print_line at 1. rewrite IH. simpl.
    rewrite <- app_assoc. reflexivity.
Qed.

(** C4: with [publish_every_deposit] off, a deposit publishes one status
    event per boundary crossed, every one of them the same event: the final
    fill, the timestamp of the timestep, the container and the timestep index.
    On a console publisher this prints that many identical lines. *)
Theorem publish_per_boundary_same_content :
  forall (G : Type) (RS : RandomSource G) (publisher : StatusPublisher)
         (sim_cfg : SimulationConfig) (ts timestep_index : Z)
         (rng rng' : Rng G) (loc updated : LocationState)
         (c : ContainerName) (old new : Z) (bs : list Z),
    publish_every_deposit sim_cfg = false ->
    step_location rng sim_cfg loc
      = (updated, mkDepositResult true (Some c) (Some old) (Some new), rng') ->
    boundaries_crossed old new (status_boundary_pct sim_cfg) = Ok bs ->
    let event := mkStatusMsg ts updated c new timestep_index "status" in
    (forall w : World,
       sim_location_step publisher sim_cfg ts timestep_index rng loc w
       = (io_times (length bs) (publish_status publisher event) ;;
          io_ret (updated, rng')) w)
    /\ (forall (mqtt_cfg : MqttConfig) (w : World),
          sim_location_step (StdoutStatusPublisher mqtt_cfg) sim_cfg ts
            timestep_index rng loc w
          = Returned (updated, rng')
              (mkWorld
                 (w_stdout w ++
                    replicate (length bs)
                      (msg_topic mqtt_cfg event,
                       make_status_payload ts updated c new timestep_index "status"))
                 (w_files w) (w_broker w))).
Proof.
  intros G RS publisher sim_cfg ts timestep_index rng rng' loc updated c old new bs
         Hevery Hstep Hbs event.
  assert (Hgen : forall (p : StatusPublisher) (w : World),
            sim_location_step p sim_cfg ts timestep_index rng loc w
            = (io_times (length bs) (publish_status p event) ;;
               io_ret (updated, rng')) w).
  { intros p w. unfold sim_location_step. rewrite Hstep.
    unfold publish_deposit. simpl. rewrite Hevery, Hbs.
    unfold io_bind. rewrite io_for_const. reflexivity. }
  split; [apply Hgen|].
  intros mqtt_cfg w. rewrite Hgen. unfold io_bind. simpl publish_status.
  rewrite io_times_print. reflexivity.
Qed.

Lemma publish_per_boundary_same_content_witness :
  let event := mkStatusMsg 900000000 (demo_location 0 44 0) Center 44 1 "status" in
  (forall w : World,
     sim_location_step NoopStatusPublisher coarse_sim_cfg 900000000 1
       (scripted [0; 1 # 2]%Q) (demo_location 0 19 0) w
     = (io_times (length [20; 30; 40]) (publish_status NoopStatusPublisher event) ;;
        io_ret (demo_location 0 44 0, mkRng [] 2)) w)
  /\ (forall (mqtt_cfg : MqttConfig) (w : World),
        sim_location_step (StdoutStatusPublisher mqtt_cfg) coarse_sim_cfg 900000000 1
          (scripted [0; 1 # 2]%Q) (demo_location 0 19 0) w
        = Returned (demo_location 0 44 0, mkRng [] 2)
            (mkWorld
               (w_stdout w ++
                  replicate (length [20; 30; 40])
                    (msg_topic mqtt_cfg event,
                     make_status_payload 900000000 (demo_location 0 44 0) Center 44 1
                       "status"))
               (w_files w) (w_broker w))).
Proof.
  apply (publish_per_boundary_same_content (list Q) scripted_source
           NoopStatusPublisher coarse_sim_cfg 900000000 1
           (scripted [0; 1 # 2]%Q) (mkRng [] 2) (demo_location 0 19 0)
           (demo_location 0 44 0) Center 19 44 [20; 30; 40]).
  - reflexivity.
  - reflexivity.
  - reflexivity.
Defined.

Example three_boundaries_three_prints :
  sim_location_step (StdoutStatusPublisher demo_mqtt_cfg) coarse_sim_cfg 900000000 1
    (scripted [0; 1 # 2]%Q) (demo_location 0 19 0) empty_world
  = Returned (demo_location 0 44 0, mkRng [] 2)
      (mkWorld
         (replicate 3 ("simulated-city/bins/a/center/status",
                       mkStatusPayload 900000000 "a" 55 12 "center" 44 1 "status"))
         ∅ []).
Proof. vm_compute. reflexivity. Qed.

(** C10: with a seed fixed (by the override or by the configuration) and a
    fixed [start_time], a run does not depend on the wall clock or on the
    operating system's entropy: from the same world, two runs in different
    environments end in the same outcome, hence with the same events printed,
    logged and sent, in the same order. *)
Theorem run_simulation_deterministic :
  forall (G : Type) (RS : RandomSource G)
         (connect_mqtt : MqttConfig -> IO MqttClientHandle)
         (env1 env2 : Env G) (cfg : AppConfig) (sim_cfg : SimulationConfig)
         (steps : Z) (dry_run : bool) (seed_override : option Z)
         (log_file : option string) (s t : Z),
    simulation cfg = Some sim_cfg ->
    match seed_override with Some x => Some x | None => seed sim_cfg end = Some s ->
    start_time sim_cfg = Some t ->
    forall w : World,
      run_simulation connect_mqtt env1 cfg steps dry_run seed_override log_file w
      = run_simulation connect_mqtt env2 cfg steps dry_run seed_override log_file w.
Proof.
  intros G RS connect_mqtt env1 env2 cfg sim_cfg steps dry_run seed_override
         log_file s t Hsim Hseed Hstart w.
  unfold run_simulation. rewrite Hsim, Hseed, Hstart. reflexivity.
Qed.

Lemma run_simulation_deterministic_witness :
  run_simulation no_broker (mkEnv 1700000000000000 [1 # 3]%Q) demo_app_cfg 5 true
    None (Some "out.jsonl") empty_world
  = run_simulation no_broker (mkEnv 1800000000000000 [2 # 3]%Q) demo_app_cfg 5 true
      None (Some "out.jsonl") empty_world.
Proof.
  apply (run_simulation_deterministic (list Q) scripted_source no_broker
           (mkEnv 1700000000000000 [1 # 3]%Q) (mkEnv 1800000000000000 [2 # 3]%Q)
           demo_app_cfg demo_sim_cfg 5 true None (Some "out.jsonl") 42 0).
  - reflexivity.
  - reflexivity.
  - reflexivity.
Defined.

(** A dry run of two timesteps with a log file: three [init] lines, then two
    identical lines for each deposit of 25 (boundaries 10 and 20); the log
    holds the same lines and is closed at the end. *)
Example dry_run_two_steps :
  match run_simulation no_broker (mkEnv 1700000000000000 [1 # 3]%Q) coarse_app_cfg 2
          true None (Some "out.jsonl") empty_world with
  | Returned _ w =>
      Some (line_summary <$> w_stdout w,
            (fun f => (file_closed f, line_summary <$> file_lines f))
              <$> w_files w !! "out.jsonl")
  | Raised _ _ => None
  end
  = let trace :=
      [("left", 0, -1, "init", 0); ("center", 0, -1, "init", 0);
       ("right", 0, -1, "init", 0);
       ("center", 25, 0, "status", 0); ("center", 25, 0, "status", 0);
       ("left", 25, 1, "status", 900000000); ("left", 25, 1, "status", 900000000)] in
    Some (trace, Some (true, trace)).
Proof. vm_compute. reflexivity. Qed.

(** Without a seed the run follows the generator of the environment: one
    environment leads to a deposit (two status lines after the three [init]
    lines), another to none. *)
Example unseeded_runs_differ :
  (match run_simulation no_broker (mkEnv 0 [0; 1 # 2]%Q) unseeded_app_cfg 1 true
           None None empty_world with
   | Returned _ w => Some (length (w_stdout w))
   | Raised _ _ => None
   end,
   match run_simulation no_broker (mkEnv 0 [3 # 4]%Q) unseeded_app_cfg 1 true
           None None empty_world with
   | Returned _ w => Some (length (w_stdout w))
   | Raised _ _ => None
   end)
  = (Some 5%nat, Some 3%nat).
Proof. vm_compute. reflexivity. Qed.

(** ** Properties of the consumer *)

Section ConsumerFacts.
Context (lib : PyLib).

Lemma omap_cons {A B : Type} (f : A -> option B) (x : A) (l : list A) :
  omap f (x :: l) = match f x with Some y => y :: omap f l | None => omap f l end.
Proof. reflexivity. Qed.

Lemma read_loop_omap (new_lines : list string) (payloads : list (gmap string JValue)) :
  read_loop lib new_lines payloads = payloads ++ omap (payload_of_line lib) new_lines.
Proof.
  revert payloads. induction new_lines as [|line rest IH]; intros payloads.
  - simpl. rewrite app_nil_r. reflexivity.
  - rewrite omap_cons. cbn [read_loop].
    destruct (payload_of_line lib line) as [payload|]; rewrite IH.
    + rewrite <- app_assoc. reflexivity.
    + reflexivity.
Qed.

Lemma events_loop_omap (new_payloads : list (gmap string JValue))
  (new_events : list StatusEvent) :
  events_loop lib new_payloads new_events
  = new_events ++ omap (event_of_payload lib) new_payloads.
Proof.
  revert new_events.
  induction new_payloads as [|payload rest IH]; intros new_events.
  - simpl. rewrite app_nil_r. reflexivity.
  - rewrite omap_cons. cbn [events_loop].
    destruct (event_from_payload lib payload) as [ev|e] eqn:Eev.
    + assert (Hev : event_of_payload lib payload = Some ev)
        by (unfold event_of_payload; rewrite Eev; reflexivity).
      rewrite Hev, IH, <- app_assoc. reflexivity.
    + assert (Hev : event_of_payload lib payload = None)
        by (unfold event_of_payload; rewrite Eev; reflexivity).
      rewrite Hev, IH. reflexivity.
Qed.

Lemma omap_payload_event (lines : list string) :
  omap (event_of_payload lib) (omap (payload_of_line lib) lines)
  = omap (event_of_line lib) lines.
Proof.
  induction lines as [|line rest IH]; [reflexivity|].
  rewrite !omap_cons.
  assert (Hline : event_of_line lib line
                  = match payload_of_line lib line with
                    | Some payload => event_of_payload lib payload
                    | None => None
                    end) by reflexivity.
  rewrite Hline.
  destruct (payload_of_line lib line) as [payload|]; [|exact IH].
  rewrite omap_cons, IH. reflexivity.
Qed.

(** When a payload decodes, and to what. *)
Lemma event_from_payload_decodes (payload : gmap string JValue) (ev : StatusEvent) :
  event_from_payload lib payload = Ok ev <->
  exists (s : string) (t : Z) (loc cont fillv : JValue) (n k : Z),
    payload !! "ts" = Some (JString s)
    /\ fromisoformat_utc lib (utc_suffix s) = Some t
    /\ payload !! "location_id" = Some loc
    /\ payload !! "container" = Some cont
    /\ payload !! "fill_pct" = Some fillv
    /\ py_int lib fillv = Ok n
    /\ (py_int lib (default (JInt 0) (payload !! "timestep_index")) = Ok k
        \/ (k = 0
            /\ (py_int lib (default (JInt 0) (payload !! "timestep_index"))
                  = Raise TypeError
                \/ exists msg : string,
                     py_int lib (default (JInt 0) (payload !! "timestep_index"))
                     = Raise (ValueError msg))))
    /\ ev = mkStatusEvent t (py_str lib loc) (py_str lib cont) n k
              (if py_truthy (default JNull (payload !! "event"))
               then py_str lib (default JNull (payload !! "event"))
               else "status").
Proof.
  unfold event_from_payload, dict_item, result_bind. split.
  - destruct (payload !! "ts") as [ts_raw|] eqn:Ets; [|discriminate].
    destruct (parse_ts lib ts_raw) as [t|e] eqn:Eparse; [|discriminate].
    destruct ts_raw as [| | | |s| |]; simpl in Eparse; try discriminate.
    destruct (fromisoformat_utc lib (utc_suffix s)) as [t'|] eqn:Eiso;
      [|discriminate].
    injection Eparse as ->.
    destruct (payload !! "location_id") as [loc|]; [|discriminate].
    destruct (payload !! "container") as [cont|]; [|discriminate].
    destruct (payload !! "fill_pct") as [fillv|]; [|discriminate].
    destruct (py_int lib fillv) as [n|e] eqn:Efill; [|discriminate].
    destruct (py_int lib (default (JInt 0) (payload !! "timestep_index")))
      as [k|e] eqn:Eidx.
    + intros [= <-]. exists s, t, loc, cont, fillv, n, k. auto 10.
    + destruct e as [msg| | | | | | | | |]; try discriminate.
      * intros [= <-]. exists s, t, loc, cont, fillv, n, 0.
        split_and!; try reflexivity; try assumption.
        right. split; [reflexivity|]. right. exists msg. reflexivity.
      * intros [= <-]. exists s, t, loc, cont, fillv, n, 0.
        split_and!; try reflexivity; try assumption.
        right. split; [reflexivity|]. left. reflexivity.
  - intros (s & t & loc & cont & fillv & n & k
            & Hts & Hiso & Hloc & Hcont & Hfill & Hn & Hk & ->).
    rewrite Hts. simpl. rewrite Hiso, Hloc, Hcont, Hfill, Hn.
    destruct Hk as [Hk | [-> [Hk | [msg Hk]]]]; rewrite Hk; reflexivity.
Qed.

(** A payload that [event_from_payload] rejects, by the first of its fields
    that is missing or refused. *)
Lemma event_from_payload_rejects (payload : gmap string JValue) :
  payload !! "ts" = None \/ payload !! "location_id" = None
  \/ payload !! "container" = None \/ payload !! "fill_pct" = None
  \/ (exists v : JValue, payload !! "ts" = Some v /\ forall s : string, v <> JString s)
  \/ (exists s : string,
        payload !! "ts" = Some (JString s)
        /\ fromisoformat_utc lib (utc_suffix s) = None)
  \/ (exists (v : JValue) (e : PyExn),
        payload !! "fill_pct" = Some v /\ py_int lib v = Raise e)
  \/ (exists v : JValue,
        payload !! "timestep_index" = Some v /\ py_int lib v = Raise OverflowError) ->
  exists e : PyExn, event_from_payload lib payload = Raise e.
Proof.
  intros Hbad.
  destruct (event_from_payload lib payload) as [ev|e] eqn:Eev; [|eauto].
  exfalso. apply event_from_payload_decodes in Eev.
  destruct Eev as (s & t & loc & cont & fillv & n & k
                   & Hts & Hiso & Hloc & Hcont & Hfill & Hn & Hk & _).
  destruct Hbad as [Hb | [Hb | [Hb | [Hb | [Hb | [Hb | [Hb | Hb]]]]]]].
  - congruence.
  - congruence.
  - congruence.
  - congruence.
  - destruct Hb as (v & Hv & Hns). rewrite Hts in Hv. injection Hv as <-.
    exact (Hns s eq_refl).
  - destruct Hb as (s' & Hs' & Hnone). congruence.
  - destruct Hb as (v & e & Hv & He). congruence.
  - destruct Hb as (v & Hv & He). rewrite Hv in Hk. simpl in Hk.
    rewrite He in Hk.
    destruct Hk as [Hk | [_ [Hk | [msg Hk]]]]; discriminate.
Qed.

Lemma dashboard_read_log_lines (fs : FileSystem) (log_path : string) (log_offset : Z)
  (new_lines : list string) (new_offset : Z) :
  fs log_path log_offset = Ok (new_lines, new_offset) ->
  dashboard_read_log lib fs log_path log_offset
  = Ok (omap (event_of_line lib) new_lines, new_offset).
Proof.
  intros Hfs. unfold dashboard_read_log, read_jsonl_incremental. rewrite Hfs.
  rewrite read_loop_omap, events_loop_omap. simpl.
  rewrite omap_payload_event. reflexivity.
Qed.

End ConsumerFacts.

(** C9 (as amended): once the lines of the log have been read, no line makes
    the read raise: the dashboard obtains the events of the lines that decode,
    in order, and skips every other line.  The only exceptions are those of
    reading the file itself: a missing file gives no events and keeps the
    offset, any other error of [open], [seek] or [readlines] (such as bytes
    that are not UTF-8) reaches the caller.  A line is skipped when it is not
    JSON, when its payload lacks [ts], [location_id], [container] or
    [fill_pct], when [ts] is not a string or not an ISO timestamp, when [int]
    rejects [fill_pct], or when [int] overflows on [timestep_index].  A line
    yields an event exactly when, stripped, it is a JSON object with an object
    under [payload] in which [ts] is an ISO timestamp string, [location_id]
    and [container] are present (of any type, converted with [str]),
    [fill_pct] is accepted by [int], and [timestep_index] is absent, accepted
    by [int], or rejected by it with a type or value error (it is then 0); an
    absent or falsy [event] becomes ["status"]. *)
Theorem consumer_skips_undecodable_records :
  forall (lib : PyLib) (fs : FileSystem) (log_path : string) (log_offset : Z),
    (forall (new_lines : list string) (new_offset : Z),
       fs log_path log_offset = Ok (new_lines, new_offset) ->
       dashboard_read_log lib fs log_path log_offset
       = Ok (omap (event_of_line lib) new_lines, new_offset))
    /\ (fs log_path log_offset = Raise FileNotFoundError ->
        dashboard_read_log lib fs log_path log_offset = Ok ([], log_offset))
    /\ (forall e : PyExn,
          dashboard_read_log lib fs log_path log_offset = Raise e <->
          fs log_path log_offset = Raise e /\ e <> FileNotFoundError)
    /\ (forall (l1 l2 : list string) (line : string),
          event_of_line lib line = None ->
          omap (event_of_line lib) (l1 ++ line :: l2)
          = omap (event_of_line lib) l1 ++ omap (event_of_line lib) l2)
    /\ (forall line : string,
          (json_loads lib (py_strip lib line) = None -> event_of_line lib line = None)
          /\ (forall payload : gmap string JValue,
                payload_of_line lib line = Some payload ->
                payload !! "ts" = None \/ payload !! "location_id" = None
                \/ payload !! "container" = None \/ payload !! "fill_pct" = None
                \/ (exists v : JValue,
                      payload !! "ts" = Some v /\ forall s : string, v <> JString s)
                \/ (exists s : string,
                      payload !! "ts" = Some (JString s)
                      /\ fromisoformat_utc lib (utc_suffix s) = None)
                \/ (exists (v : JValue) (e : PyExn),
                      payload !! "fill_pct" = Some v /\ py_int lib v = Raise e)
                \/ (exists v : JValue,
                      payload !! "timestep_index" = Some v
                      /\ py_int lib v = Raise OverflowError) ->
                event_of_line lib line = None))
    /\ (forall (line : string) (ev : StatusEvent),
          event_of_line lib line = Some ev <->
          exists (obj payload : gmap string JValue) (s : string) (t : Z)
                 (loc cont fillv : JValue) (n k : Z),
            py_strip lib line <> ""
            /\ json_loads lib (py_strip lib line) = Some (JDict obj)
            /\ obj !! "payload" = Some (JDict payload)
            /\ payload !! "ts" = Some (JString s)
            /\ fromisoformat_utc lib (utc_suffix s) = Some t
            /\ payload !! "location_id" = Some loc
            /\ payload !! "container" = Some cont
            /\ payload !! "fill_pct" = Some fillv
            /\ py_int lib fillv = Ok n
            /\ (py_int lib (default (JInt 0) (payload !! "timestep_index")) = Ok k
                \/ (k = 0
                    /\ (py_int lib (default (JInt 0) (payload !! "timestep_index"))
                          = Raise TypeError
                        \/ exists msg : string,
                             py_int lib (default (JInt 0) (payload !! "timestep_index"))
                             = Raise (ValueError msg))))
            /\ ev = mkStatusEvent t (py_str lib loc) (py_str lib cont) n k
                      (if py_truthy (default JNull (payload !! "event"))
                       then py_str lib (default JNull (payload !! "event"))
                       else "status")).
Proof.
  intros lib fs log_path log_offset.
  split; [|split; [|split; [|split; [|split]]]].
  - intros new_lines new_offset Hfs. apply dashboard_read_log_lines. exact Hfs.
  - intros Hfs. unfold dashboard_read_log, read_jsonl_incremental. rewrite Hfs.
    reflexivity.
  - intros e. unfold dashboard_read_log, read_jsonl_incremental.
    destruct (fs log_path log_offset) as [[new_lines new_offset]|e'].
    + split; [discriminate|]. intros [Hfs _]. discriminate.
    + split.
      * destruct e'; try discriminate; intros [= <-];
          (split; [reflexivity|discriminate]).
      * intros [[= ->] Hne]. destruct e; try reflexivity. exfalso. apply Hne.
        reflexivity.
  - intros l1 l2 line Hnone. rewrite omap_app, omap_cons, Hnone. reflexivity.
  - intros line. split.
    + intros Hjson. unfold event_of_line, payload_of_line.
      destruct (String.eqb (py_strip lib line) ""); [reflexivity|].
      rewrite Hjson. reflexivity.
    + intros payload Hpayload Hbad. unfold event_of_line. rewrite Hpayload.
      destruct (event_from_payload_rejects lib payload Hbad) as [e ->].
      reflexivity.
  - intros line ev. unfold event_of_line, payload_of_line. split.
    + destruct (String.eqb (py_strip lib line) "") eqn:Eempty; [discriminate|].
      destruct (json_loads lib (py_strip lib line)) as [doc|] eqn:Ejson;
        [|discriminate].
      destruct doc as [| | | | | |obj]; try discriminate.
      destruct (obj !! "payload") as [inner|] eqn:Einner; [|discriminate].
      destruct inner as [| | | | | |payload]; try discriminate.
      destruct (event_from_payload lib payload) as [ev'|e] eqn:Eev; [|discriminate].
      intros [= <-]. apply event_from_payload_decodes in Eev.
      destruct Eev as (s & t & loc & cont & fillv & n & k & Hrest).
      exists obj, payload, s, t, loc, cont, fillv, n, k.
      split; [|split; [reflexivity|split; [exact Einner|exact Hrest]]].
      intros Hnil. rewrite Hnil in Eempty. discriminate.
    + intros (obj & payload & s & t & loc & cont & fillv & n & k
              & Hne & Hjson & Hinner & Hrest).
      assert (Eempty : String.eqb (py_strip lib line) "" = false)
        by (apply String.eqb_neq; exact Hne).
      rewrite Eempty, Hjson, Hinner.
      assert (Eev : event_from_payload lib payload = Ok ev).
      { apply event_from_payload_decodes.
        exists s, t, loc, cont, fillv, n, k. exact Hrest. }
      rewrite Eev. reflexivity.
Qed.

(** C9, the claim as stated fails: the last record has a [location_id] and a
    [fill_pct] of the wrong type and lacks [timestep_index] and [event], and
    it is not skipped: it yields an event with converted values. *)
Lemma wrong_type_record_not_skipped :
  json_loads example_lib line_wrong_types = Some doc_wrong_types
  /\ dashboard_read_log example_lib example_fs "sim_status.jsonl" 0
     = Ok ([mkStatusEvent 1771439177000000 "a" "left" 10 4 "status";
            mkStatusEvent 1771440077000000 "7" "left" 12 0 "status"],
           395).
Proof. vm_compute. split; reflexivity. Qed.

(** The read of the file is outside the loop that skips: a log whose bytes
    are not UTF-8 makes [readlines] raise, and the dashboard, which catches
    only [FileNotFoundError], lets the error through. *)
Example undecodable_file_stops_the_read :
  forall (lib : PyLib) (log_path : string) (log_offset : Z),
    dashboard_read_log lib (fun _ _ => Raise UnicodeDecodeError) log_path log_offset
    = Raise UnicodeDecodeError.
Proof. reflexivity. Qed.

(** ** Further properties of the boundary detector *)

(** X1: for every pair of integers (also negative ones, also a decreasing
    fill) and every positive boundary, the detector returns, in increasing
    order, exactly the multiples of the boundary that lie in [(old, new]]. *)
Theorem boundaries_crossed_members (old new b : Z) :
  0 < b ->
  exists l : list Z,
    boundaries_crossed old new b = Ok l
    /\ StronglySorted Z.lt l
    /\ (forall x : Z, x ∈ l <-> (b | x) /\ old < x <= new).
Proof.
  intros Hb. unfold boundaries_crossed.
  destruct (Z.leb_spec b 0) as [?|_]; [lia|].
  set (ob := old / b). set (nb := new / b).
  assert (Hob : b * ob <= old < b * ob + b).
  { pose proof (Z.mul_div_le old b Hb). pose proof (Z.mul_succ_div_gt old b Hb).
    fold ob in H, H0. lia. }
  assert (Hnb : b * nb <= new < b * nb + b).
  { pose proof (Z.mul_div_le new b Hb). pose proof (Z.mul_succ_div_gt new b Hb).
    fold nb in H, H0. lia. }
  destruct (Z.leb_spec nb ob) as [Hno|Hyes].
  - exists []. split; [reflexivity|]. split; [constructor|].
    intros x. split; [intros Hx; inversion Hx|].
    intros [[k ->] Hx]. exfalso.
    assert (ob < k) by nia. assert (k <= nb) by nia. lia.
  - unfold py_range. replace (nb + 1 - (ob + 1)) with (nb - ob) by lia.
    eexists. split; [reflexivity|]. split.
    + rewrite <- (Z2Nat.id (nb - ob)) by lia. apply scaled_range_sorted, Hb.
    + intros x. rewrite list_elem_of_fmap. setoid_rewrite elem_of_seqZ. split.
      * intros [k [-> Hk]]. split; [exists k; reflexivity | nia].
      * intros [[k ->] Hx]. exists k. split; [reflexivity|].
        assert (ob < k) by nia. assert (k <= nb) by nia. lia.
Qed.

Lemma boundaries_crossed_members_witness :
  exists l : list Z,
    boundaries_crossed (-15) 12 10 = Ok l
    /\ StronglySorted Z.lt l
    /\ (forall x : Z, x ∈ l <-> (10 | x) /\ -15 < x <= 12).
Proof. apply (boundaries_crossed_members (-15) 12 10). lia. Defined.

Example boundaries_crossed_negative : boundaries_crossed (-15) 12 10 = Ok [-10; 0; 10].
Proof. reflexivity. Qed.

Example boundaries_crossed_decrease : boundaries_crossed 31 19 10 = Ok [].
Proof. reflexivity. Qed.

(** X2: boundaries compose: for [a <= m <= c] the boundaries crossed from
    [a] to [c] are those crossed from [a] to [m] followed by those crossed
    from [m] to [c]. *)
Theorem boundaries_crossed_compose (a m c b : Z) :
  0 < b -> a <= m -> m <= c ->
  exists l1 l2 : list Z,
    boundaries_crossed a m b = Ok l1
    /\ boundaries_crossed m c b = Ok l2
    /\ boundaries_crossed a c b = Ok (l1 ++ l2).
Proof.
  intros Hb Ham Hmc.
  assert (Hd1 : a / b <= m / b) by (apply Z.div_le_mono; lia).
  assert (Hd2 : m / b <= c / b) by (apply Z.div_le_mono; lia).
  assert (Hgen : forall x y, x / b <= y / b ->
            boundaries_crossed x y b
            = Ok ((fun i => i * b) <$> seqZ (x / b + 1) (y / b - x / b))).
  { intros x y Hxy. unfold boundaries_crossed, py_range.
    destruct (Z.leb_spec b 0) as [?|_]; [lia|].
    destruct (Z.leb_spec (y / b) (x / b)) as [Hle|Hlt].
    - rewrite seqZ_nil by lia. reflexivity.
    - f_equal. f_equal. f_equal. lia. }
  eexists _, _. split; [apply Hgen, Hd1|]. split; [apply Hgen, Hd2|].
  rewrite Hgen by lia. f_equal. rewrite <- fmap_app. f_equal.
  replace (c / b - a / b) with ((m / b - a / b) + (c / b - m / b)) by lia.
  rewrite seqZ_app by lia. f_equal. f_equal. lia.
Qed.

Lemma boundaries_crossed_compose_witness :
  exists l1 l2 : list Z,
    boundaries_crossed 7 25 10 = Ok l1
    /\ boundaries_crossed 25 48 10 = Ok l2
    /\ boundaries_crossed 7 48 10 = Ok (l1 ++ l2).
Proof. apply (boundaries_crossed_compose 7 25 48 10); lia. Defined.

(** ** Further properties of the timestep engine *)

Section EngineMore.
Context {G : Type} `{RandomSource G}.

Lemma choose_container_result (rng : Rng G) (l c r : ContainerState) :
  match fst (choose_container rng l c r) with
  | Some name => is_full (containers_get l c r name) = false
  | None => is_full l && is_full c && is_full r = true
  end.
Proof.
  destruct (choose_container_cases rng l c r)
    as [[Hfree ->] | [[Hfull [Hnil ->]] | [Hfull [name [names [Hav ->]]]]]]; simpl.
  - exact Hfree.
  - apply available_containers_nil, Hnil.
  - pose proof (rng_choice_In (snd (_pick_preferred_container rng)) name names) as Hin.
    rewrite <- Hav in Hin. apply available_containers_In in Hin. exact Hin.
Qed.

Lemma total_fill_with_fill (loc : LocationState) (c : ContainerName) (v : Z) :
  total_fill (with_fill loc c v) = total_fill loc + (v - fill_pct (get_container loc c)).
Proof. unfold total_fill. destruct c; simpl; lia. Qed.

End EngineMore.

(** X3: [step_location] deposits exactly when an arrival occurs and not all
    three containers are full.  Without a deposit the location is returned
    unchanged.  A deposit goes to a container that was not full, changes the
    sum of the three fills by exactly [new - old], and strictly raises the
    fill when the bag delta is positive. *)
Theorem step_location_deposits_iff :
  forall (G : Type) (RS : RandomSource G) (rng : Rng G)
         (sim_cfg : SimulationConfig) (loc : LocationState),
    let roll := fst (rng_random rng) in
    let loc' := fst (fst (step_location rng sim_cfg loc)) in
    let dep := snd (fst (step_location rng sim_cfg loc)) in
    (deposited dep = true <->
       (roll < arrival_prob sim_cfg)%Q
       /\ is_full (left loc) && is_full (center loc) && is_full (right loc) = false)
    /\ (deposited dep = false -> loc' = loc /\ dep = no_deposit)
    /\ (deposited dep = true ->
          exists (c : ContainerName) (old new : Z),
            dep = mkDepositResult true (Some c) (Some old) (Some new)
            /\ old = fill_pct (get_container loc c)
            /\ new = fill_pct (get_container loc' c)
            /\ old < 100
            /\ total_fill loc' = total_fill loc + (new - old)
            /\ (0 < bag_fill_delta_pct sim_cfg -> old < new)).
Proof.
  intros G RS rng sim_cfg loc roll loc' dep. subst roll loc' dep.
  unfold step_location.
  destruct (rng_random rng) as [roll rng1]. simpl fst.
  destruct (Qltb roll (arrival_prob sim_cfg)) eqn:Harr; simpl negb; cbv iota.
  - apply Qltb_lt in Harr.
    pose proof (choose_container_result rng1 (left loc) (center loc) (right loc)) as Hres.
    destruct (choose_container rng1 (left loc) (center loc) (right loc))
      as [chosen rng2]. simpl in Hres.
    assert (Hdep : forall c : ContainerName,
              is_full (get_container loc c) = false ->
              let old := fill_pct (get_container loc c) in
              let new := Z.min 100 (old + bag_fill_delta_pct sim_cfg) in
              (is_full (left loc) && is_full (center loc) && is_full (right loc) = false)
              /\ old < 100
              /\ total_fill (with_fill loc c new) = total_fill loc + (new - old)
              /\ new = fill_pct (get_container (with_fill loc c new) c)
              /\ (0 < bag_fill_delta_pct sim_cfg -> old < new)).
    { intros c Hc old new.
      assert (Hlt : old < 100).
      { unfold is_full in Hc. apply Z.leb_gt in Hc. exact Hc. }
      split; [destruct c; simpl in Hc; rewrite Hc;
              rewrite ?andb_false_r; reflexivity|].
      split; [exact Hlt|].
      split; [apply total_fill_with_fill|].
      split; [rewrite with_fill_same; reflexivity|].
      subst new. lia. }
    destruct chosen as [c|].
    + assert (Hc : is_full (get_container loc c) = false)
        by (destruct c; exact Hres).
      destruct (Hdep c Hc) as (Hnot & Hlt & Hsum & Hnew & Hinc).
      destruct c; simpl fst; simpl snd; simpl deposited;
        (split; [split; [intros _; split; [exact Harr | exact Hnot] | reflexivity]|]);
        (split; [discriminate|]); intros _;
        eexists _, _, _; (split; [reflexivity|]);
        (split; [reflexivity|]); (split; [exact Hnew|]);
        (split; [exact Hlt|]); (split; [exact Hsum | exact Hinc]).
    + simpl. split; [split; [discriminate|]|].
      * intros [_ Hnot]. congruence.
      * split; [auto | discriminate].
  - simpl. split; [split; [discriminate|]|].
    + intros [Hlt _]. apply Qltb_lt in Hlt. congruence.
    + split; [auto | discriminate].
Qed.

(** ** Further properties of the publishers *)

Lemma io_for_cons {A : Type} (x : A) (xs : list A) (body : A -> IO unit) (w : World) :
  io_for (x :: xs) body w =
  match body x w with
  | Returned _ w1 => io_for xs body w1
  | Raised e w1 => Raised e w1
  end.
Proof. reflexivity. Qed.

(** X4: fan-out composes: a fan-out nested in a fan-out behaves as the
    flattened fan-out, a fan-out of one publisher behaves as that publisher,
    an empty fan-out does nothing, and the publisher the driver selects
    (the single publisher itself, or a fan-out when there are several)
    always behaves as the fan-out of all configured publishers. *)
Theorem tee_publish_flattens :
  forall (ps1 qs ps2 : list StatusPublisher) (p : StatusPublisher)
         (m : StatusMsg) (w : World),
    publish_status (TeeStatusPublisher (ps1 ++ TeeStatusPublisher qs :: ps2)) m w
      = publish_status (TeeStatusPublisher (ps1 ++ qs ++ ps2)) m w
    /\ publish_status (TeeStatusPublisher [p]) m w = publish_status p m w
    /\ publish_status (TeeStatusPublisher []) m w = Returned tt w
    /\ publish_status (select_publisher ps1 p) m w
       = publish_status (TeeStatusPublisher (ps1 ++ [p])) m w.
Proof.
  intros ps1 qs ps2 p m w.
  assert (Hone : forall (q : StatusPublisher) (w0 : World),
            publish_status (TeeStatusPublisher [q]) m w0 = publish_status q m w0).
  { intros q w0. simpl. unfold io_bind.
    destruct (publish_status q m w0) as [[] w1 | e w1]; reflexivity. }
  split; [|split; [apply Hone|split; [reflexivity|]]].
  - rewrite !publish_status_tee. unfold tee_publish.
    rewrite !io_for_app. destruct (io_for ps1 _ w) as [[] w1 | e w1]; [|reflexivity].
    rewrite io_for_cons, publish_status_tee, io_for_app. unfold tee_publish.
    destruct (io_for qs _ w1) as [[] w2 | e w2]; reflexivity.
  - destruct ps1 as [|q ps1]; [symmetry; apply Hone | reflexivity].
Qed.

(** ** Further properties of the consumer *)

Lemma replace_utc_offset_other (a : ascii) (s : string) :
  Ascii.eqb "+" a = false ->
  replace_utc_offset (String a s) = String a (replace_utc_offset s).
Proof.
  intros Ha.
  destruct a as [[] [] [] [] [] [] [] []]; try reflexivity; discriminate Ha.
Qed.

Lemma replace_utc_offset_tail (body : string) :
  lacks_char "+" body = true ->
  replace_utc_offset (body +:+ "+00:00") = body +:+ "Z".
Proof.
  induction body as [|a body IH]; intros Hbody; [reflexivity|].
  simpl in Hbody. apply andb_true_iff in Hbody as [Ha Hrest].
  apply negb_true_iff in Ha.
  change (String a body +:+ "+00:00") with (String a (body +:+ "+00:00")).
  rewrite replace_utc_offset_other by exact Ha.
  rewrite IH by exact Hrest. reflexivity.
Qed.

Lemma utc_suffix_Z (body : string) : utc_suffix (body +:+ "Z") = body +:+ "+00:00".
Proof.
  induction body as [|a body IH]; [reflexivity|].
  change (String a body +:+ "Z") with (String a (body +:+ "Z")).
  change (String a body +:+ "+00:00") with (String a (body +:+ "+00:00")).
  rewrite <- IH. destruct body; reflexivity.
Qed.

(** X5: the timestamp text survives the trip: on an ISO text that ends in
    [+00:00] and has no other [+], the producer's replacement yields the text
    with a final [Z], and the consumer's suffix rule restores the original
    text. *)
Theorem utc_suffix_round_trip (body : string) :
  lacks_char "+" body = true ->
  replace_utc_offset (body +:+ "+00:00") = body +:+ "Z"
  /\ utc_suffix (replace_utc_offset (body +:+ "+00:00")) = body +:+ "+00:00".
Proof.
  intros Hbody. rewrite replace_utc_offset_tail by exact Hbody.
  split; [reflexivity | apply utc_suffix_Z].
Qed.

Lemma utc_suffix_round_trip_witness :
  replace_utc_offset ("2026-02-18T18:26:17.155154" +:+ "+00:00")
    = "2026-02-18T18:26:17.155154" +:+ "Z"
  /\ utc_suffix (replace_utc_offset ("2026-02-18T18:26:17.155154" +:+ "+00:00"))
     = "2026-02-18T18:26:17.155154" +:+ "+00:00".
Proof. apply (utc_suffix_round_trip "2026-02-18T18:26:17.155154"). reflexivity. Defined.

Lemma status_data_lookup (isoformat : Z -> string) (ts : Z) (location : LocationState)
  (c : ContainerName) (fill idx : Z) (event : string) :
  let d := status_data isoformat ts location c fill idx event in
  d !! "ts" = Some (JString (replace_utc_offset (isoformat ts)))
  /\ d !! "location_id" = Some (JString (location_id location))
  /\ d !! "container" = Some (JString (container_str c))
  /\ d !! "fill_pct" = Some (JInt fill)
  /\ d !! "timestep_index" = Some (JInt idx)
  /\ d !! "event" = Some (JString event).
Proof. unfold status_data. repeat split; by simplify_map_eq. Qed.

Lemma status_data_decodes (lib : PyLib) (isoformat : Z -> string) (ts : Z)
  (location : LocationState) (c : ContainerName) (fill idx : Z) (event body : string) :
  isoformat ts = body +:+ "+00:00" ->
  lacks_char "+" body = true ->
  fromisoformat_utc lib (isoformat ts) = Some ts ->
  event <> "" ->
  event_from_payload lib (status_data isoformat ts location c fill idx event)
  = Ok (mkStatusEvent ts (location_id location) (container_str c) fill idx event).
Proof.
  intros Hiso Hbody Hparse Hevent.
  destruct (status_data_lookup isoformat ts location c fill idx event)
    as (Hts & Hloc & Hc & Hfill & Hidx & Hev).
  unfold event_from_payload, dict_item, result_bind.
  rewrite Hts, Hloc, Hc, Hfill, Hidx, Hev. simpl.
  rewrite Hiso. destruct (utc_suffix_round_trip body Hbody) as [_ ->].
  rewrite <- Hiso, Hparse.
  assert (Hne : String.eqb event "" = false) by (apply String.eqb_neq; exact Hevent).
  rewrite Hne. reflexivity.
Qed.

(** X6: the wire format round-trips: when the log line written for a
    published message is read back (the library decoding the line to the
    object that was written, and parsing the ISO timestamp it printed), the
    dashboard obtains the event with the same timestamp, location id,
    container, fill, timestep index and kind.  The kind must not be empty. *)
Theorem logged_status_round_trip :
  forall (lib : PyLib) (isoformat : Z -> string) (mqtt_cfg : MqttConfig)
         (m : StatusMsg) (line body : string),
    isoformat (m_ts m) = body +:+ "+00:00" ->
    lacks_char "+" body = true ->
    fromisoformat_utc lib (isoformat (m_ts m)) = Some (m_ts m) ->
    m_event m <> "" ->
    py_strip lib line <> "" ->
    json_loads lib (py_strip lib line) = Some (jsonl_line_obj isoformat mqtt_cfg m) ->
    event_of_line lib line
    = Some (mkStatusEvent (m_ts m) (location_id (m_location m))
              (container_str (m_container m)) (m_fill_pct m) (m_timestep_index m)
              (m_event m)).
Proof.
  intros lib isoformat mqtt_cfg m line body Hiso Hbody Hparse Hevent Hline Hjson.
  unfold event_of_line, payload_of_line.
  assert (Hne : String.eqb (py_strip lib line) "" = false)
    by (apply String.eqb_neq; exact Hline).
  rewrite Hne, Hjson. unfold jsonl_line_obj.
  assert (Hpayload :
    (<["topic" := JString (msg_topic mqtt_cfg m)]>
       (<["payload" :=
            JDict (status_data isoformat (m_ts m) (m_location m) (m_container m)
                     (m_fill_pct m) (m_timestep_index m) (m_event m))]> ∅)
     : gmap string JValue) !! "payload"
    = Some (JDict (status_data isoformat (m_ts m) (m_location m) (m_container m)
                     (m_fill_pct m) (m_timestep_index m) (m_event m))))
    by (by simplify_map_eq).
  rewrite Hpayload.
  rewrite (status_data_decodes lib isoformat (m_ts m) (m_location m) (m_container m)
             (m_fill_pct m) (m_timestep_index m) (m_event m) body Hiso Hbody Hparse
             Hevent).
  reflexivity.
Qed.

Lemma logged_status_round_trip_witness :
  event_of_line example_lib (line_ok +:+ newline)
  = Some (mkStatusEvent 1771439177000000 "a" "left" 10 4 "status").
Proof.
  apply (logged_status_round_trip example_lib
           (fun _ => "2026-02-18T18:26:17+00:00") demo_mqtt_cfg
           (mkStatusMsg 1771439177000000 (demo_location 10 0 0) Left 10 4 "status")
           (line_ok +:+ newline) "2026-02-18T18:26:17").
  - reflexivity.
  - reflexivity.
  - reflexivity.
  - discriminate.
  - vm_compute. discriminate.
  - vm_compute. reflexivity.
Defined.

(** X7: when a payload decodes, and to what.  [event_from_payload] returns
    an event exactly when [ts] is a string that parses as an ISO timestamp,
    [location_id] and [container] are present (of any type), [fill_pct] is
    present and [int] accepts it, and [int] does not overflow on
    [timestep_index].  The event carries [str] of the two names, the
    converted fill, the timestep index (0 when it is absent or [int] rejects
    it with a type or value error) and the kind (["status"] when [event] is
    absent or falsy). *)
Theorem event_from_payload_ok_iff :
  forall (lib : PyLib) (payload : gmap string JValue) (ev : StatusEvent),
    event_from_payload lib payload = Ok ev <->
    exists (s : string) (t : Z) (loc cont fillv : JValue) (n k : Z),
      payload !! "ts" = Some (JString s)
      /\ fromisoformat_utc lib (utc_suffix s) = Some t
      /\ payload !! "location_id" = Some loc
      /\ payload !! "container" = Some cont
      /\ payload !! "fill_pct" = Some fillv
      /\ py_int lib fillv = Ok n
      /\ (py_int lib (default (JInt 0) (payload !! "timestep_index")) = Ok k
          \/ (k = 0
              /\ (py_int lib (default (JInt 0) (payload !! "timestep_index"))
                    = Raise TypeError
                  \/ exists msg : string,
                       py_int lib (default (JInt 0) (payload !! "timestep_index"))
                       = Raise (ValueError msg))))
      /\ ev = mkStatusEvent t (py_str lib loc) (py_str lib cont) n k
                (if py_truthy (default JNull (payload !! "event"))
                 then py_str lib (default JNull (payload !! "event"))
                 else "status").
Proof.
  intros lib payload ev. unfold event_from_payload, dict_item, result_bind. split.
  - destruct (payload !! "ts") as [ts_raw|] eqn:Ets; [|discriminate].
    destruct (parse_ts lib ts_raw) as [t|e] eqn:Eparse; [|discriminate].
    assert (Hts : exists s, ts_raw = JString s
                            /\ fromisoformat_utc lib (utc_suffix s) = Some t).
    { destruct ts_raw; simpl in Eparse; try discriminate.
      destruct (fromisoformat_utc lib (utc_suffix s)) eqn:Eiso; [|discriminate].
      injection Eparse as ->. eauto. }
    destruct Hts as (s & -> & Hiso).
    destruct (payload !! "location_id") as [loc|]; [|discriminate].
    destruct (payload !! "container") as [cont|]; [|discriminate].
    destruct (payload !! "fill_pct") as [fillv|]; [|discriminate].
    destruct (py_int lib fillv) as [n|e] eqn:Efill; [|discriminate].
    destruct (py_int lib (default (JInt 0) (payload !! "timestep_index")))
      as [k|e] eqn:Eidx.
    + intros [= <-]. exists s, t, loc, cont, fillv, n, k. auto 10.
    + destruct e; try discriminate.
      * intros [= <-]. exists s, t, loc, cont, fillv, n, 0.
        split_and!; try reflexivity; try assumption.
        right. split; [reflexivity|]. right. eauto.
      * intros [= <-]. exists s, t, loc, cont, fillv, n, 0.
        split_and!; try reflexivity; try assumption.
        right. split; [reflexivity|]. left. reflexivity.
  - intros (s & t & loc & cont & fillv & n & k
            & Hts & Hiso & Hloc & Hcont & Hfill & Hn & Hk & ->).
    rewrite Hts. simpl. rewrite Hiso, Hloc, Hcont, Hfill, Hn.
    destruct Hk as [Hk | [-> [Hk | [msg Hk]]]]; rewrite Hk; reflexivity.
Qed.

(** X8: reading a log in increments that end at line boundaries loses
    nothing.  Take two refreshes of the dashboard: the first reads the file as
    it is then ([fs1]) from [offset] and stops at [mid]; the second reads the
    file as it has grown ([fs2]) from [mid].  When the file has grown by whole
    lines (read at once from [offset], the grown file gives the lines of the
    first read followed by those of the second), the payloads and the events
    of the two refreshes, one after the other, are those of one read of the
    grown file, and both ways stop at the same offset. *)
Theorem incremental_read_composes :
  forall (lib : PyLib) (fs1 fs2 : FileSystem) (path : string)
         (offset mid new_offset : Z) (lines1 lines2 : list string),
    fs1 path offset = Ok (lines1, mid) ->
    fs2 path mid = Ok (lines2, new_offset) ->
    fs2 path offset = Ok (lines1 ++ lines2, new_offset) ->
    exists (payloads1 payloads2 : list (gmap string JValue))
           (events1 events2 : list StatusEvent),
      read_jsonl_incremental lib fs1 path offset = Ok (payloads1, mid)
      /\ read_jsonl_incremental lib fs2 path mid = Ok (payloads2, new_offset)
      /\ read_jsonl_incremental lib fs2 path offset
         = Ok (payloads1 ++ payloads2, new_offset)
      /\ dashboard_read_log lib fs1 path offset = Ok (events1, mid)
      /\ dashboard_read_log lib fs2 path mid = Ok (events2, new_offset)
      /\ dashboard_read_log lib fs2 path offset = Ok (events1 ++ events2, new_offset).
Proof.
  intros lib fs1 fs2 path offset mid new_offset lines1 lines2 Hfirst Hsecond Hwhole.
  exists (omap (payload_of_line lib) lines1), (omap (payload_of_line lib) lines2),
         (omap (event_of_line lib) lines1), (omap (event_of_line lib) lines2).
  rewrite (dashboard_read_log_lines lib fs1 path offset lines1 mid Hfirst).
  rewrite (dashboard_read_log_lines lib fs2 path mid lines2 new_offset Hsecond).
  rewrite (dashboard_read_log_lines lib fs2 path offset (lines1 ++ lines2) new_offset
             Hwhole).
  unfold read_jsonl_incremental. rewrite Hfirst, Hsecond, Hwhole.
  rewrite !read_loop_omap, !omap_app. simpl. split_and!; reflexivity.
Qed.

Lemma incremental_read_composes_witness :
  exists (payloads1 payloads2 : list (gmap string JValue))
         (events1 events2 : list StatusEvent),
    read_jsonl_incremental example_lib (one_file "sim_status.jsonl" (line_ok +:+ newline))
      "sim_status.jsonl" 0
    = Ok (payloads1, 213)
    /\ read_jsonl_incremental example_lib example_fs "sim_status.jsonl" 213
       = Ok (payloads2, 395)
    /\ read_jsonl_incremental example_lib example_fs "sim_status.jsonl" 0
       = Ok (payloads1 ++ payloads2, 395)
    /\ dashboard_read_log example_lib (one_file "sim_status.jsonl" (line_ok +:+ newline))
         "sim_status.jsonl" 0
       = Ok (events1, 213)
    /\ dashboard_read_log example_lib example_fs "sim_status.jsonl" 213
       = Ok (events2, 395)
    /\ dashboard_read_log example_lib example_fs "sim_status.jsonl" 0
       = Ok (events1 ++ events2, 395).
Proof.
  apply (incremental_read_composes example_lib
           (one_file "sim_status.jsonl" (line_ok +:+ newline)) example_fs
           "sim_status.jsonl" 0 213 395
           [line_ok +:+ newline]
           ["not json" +:+ newline; newline; line_no_ts +:+ newline;
            line_wrong_types +:+ newline]).
  - vm_compute. reflexivity.
  - vm_compute. reflexivity.
  - vm_compute. reflexivity.
Defined.

(** The condition matters: when the first refresh ends inside a record (the
    file then holds the first 80 bytes of the line), neither refresh decodes
    it, although the grown file read at once yields its event. *)
Example record_cut_by_an_increment_is_lost :
  dashboard_read_log example_lib
    (one_file "sim_status.jsonl" (substring 0 80 line_ok)) "sim_status.jsonl" 0
  = Ok ([], 80)
  /\ dashboard_read_log example_lib
       (one_file "sim_status.jsonl" (line_ok +:+ newline)) "sim_status.jsonl" 80
     = Ok ([], 213)
  /\ dashboard_read_log example_lib
       (one_file "sim_status.jsonl" (line_ok +:+ newline)) "sim_status.jsonl" 0
     = Ok ([mkStatusEvent 1771439177000000 "a" "left" 10 4 "status"], 213).
Proof. vm_compute. split_and!; reflexivity. Qed.






(** With a dot in a container name two different bins can share a series. *)
Example series_key_collision : series_key "a.b" "c" = series_key "a" "b.c".
Proof. reflexivity. Qed.

Lemma drain_loop_take {A : Type} (rounds : list Z) (q items : list A) :
  drain_loop rounds q items
  = (items ++ take (length rounds) q, drop (length rounds) q).
Proof.
  revert q items. induction rounds as [|r rounds IH]; intros q items; simpl.
  - rewrite app_nil_r. reflexivity.
  - destruct q as [|x q']; simpl.
    + rewrite app_nil_r. reflexivity.
    + rewrite IH, <- app_assoc. reflexivity.
Qed.

Lemma on_message_fold (lib : PyLib) (messages : list string)
  (q : list (gmap string JValue)) :
  foldl (fun q0 payload_str => on_message lib payload_str q0) q messages
  = q ++ omap (fun payload_str =>
                 match json_loads lib payload_str with
                 | Some (JDict payload) => Some payload
                 | _ => None
                 end) messages.
Proof.
  revert q. induction messages as [|msg rest IH]; intros q.
  - simpl. rewrite app_nil_r. reflexivity.
  - rewrite omap_cons. cbn [foldl]. rewrite IH. unfold on_message.
    destruct (json_loads lib msg) as [[]|]; try reflexivity.
    rewrite <- app_assoc. reflexivity.
Qed.

(** X10: [drain_queue] takes the first [max_items] items of the queue in
    order and leaves the rest (for a queue shorter than that, everything;
    for [max_items <= 0], nothing): no item is lost, duplicated or
    reordered. *)
Theorem drain_queue_take_drop :
  forall (A : Type) (q : list A) (max_items : Z),
    drain_queue q max_items
      = (take (Z.to_nat max_items) q, drop (Z.to_nat max_items) q)
    /\ fst (drain_queue q max_items) ++ snd (drain_queue q max_items) = q
    /\ length (fst (drain_queue q max_items))
       = Nat.min (Z.to_nat max_items) (length q).
Proof.
  intros A q max_items.
  assert (Heq : drain_queue q max_items
                = (take (Z.to_nat max_items) q, drop (Z.to_nat max_items) q)).
  { unfold drain_queue. rewrite drain_loop_take, py_range_length.
    rewrite Z.sub_0_r. reflexivity. }
  rewrite Heq. simpl. split; [reflexivity|].
  split; [apply take_drop | apply length_take].
Qed.

(** X11: the MQTT path of the dashboard: the listener queues, in arrival
    order, exactly the messages that are JSON objects, and one refresh
    decodes the first 5000 queued payloads, skipping those that fail to
    decode, and leaves the others queued. *)
Theorem mqtt_consumer_pipeline :
  forall (lib : PyLib) (messages : list string) (q : list (gmap string JValue)),
    foldl (fun q0 payload_str => on_message lib payload_str q0) q messages
      = q ++ omap (fun payload_str =>
                     match json_loads lib payload_str with
                     | Some (JDict payload) => Some payload
                     | _ => None
                     end) messages
    /\ dashboard_read_mqtt lib q
       = (omap (event_of_payload lib) (take 5000 q), drop 5000 q).
Proof.
  intros lib messages q. split; [apply on_message_fold|].
  unfold dashboard_read_mqtt, drain_queue.
  rewrite drain_loop_take, py_range_length. simpl.
  rewrite events_loop_omap. reflexivity.
Qed.

(** ** Further properties of the driver *)

(** X12: invalid arguments are rejected before anything happens: with
    [steps <= 0], no simulation section or no locations, [run_simulation]
    raises [ValueError] and leaves the world as it was (no log file opened,
    no connection attempted, nothing published). *)
Theorem run_simulation_rejects_invalid :
  forall (G : Type) (RS : RandomSource G)
         (connect_mqtt : MqttConfig -> IO MqttClientHandle) (env : Env G)
         (cfg : AppConfig) (steps : Z) (dry_run : bool) (seed_override : option Z)
         (log_file : option string) (w : World),
    steps <= 0 \/ simulation cfg = None
    \/ (exists sim_cfg : SimulationConfig,
          simulation cfg = Some sim_cfg /\ locations sim_cfg = []) ->
    exists msg : string,
      run_simulation connect_mqtt env cfg steps dry_run seed_override log_file w
      = Raised (ValueError msg) w.
Proof.
  intros G RS connect_mqtt env cfg steps dry_run seed_override log_file w Hbad.
  unfold run_simulation.
  destruct (Z.leb_spec steps 0) as [Hle|Hgt]; [eexists; reflexivity|].
  destruct Hbad as [Hsteps | [Hnone | [sim_cfg [Hsome Hlocs]]]].
  - lia.
  - rewrite Hnone. eexists. reflexivity.
  - rewrite Hsome, Hlocs. eexists. reflexivity.
Qed.

Lemma run_simulation_rejects_invalid_witness :
  exists msg : string,
    run_simulation no_broker (mkEnv 0 [1 # 3]%Q) demo_app_cfg 0 false None
      (Some "out.jsonl") empty_world
    = Raised (ValueError msg) empty_world.
Proof.
  apply (run_simulation_rejects_invalid (list Q) scripted_source no_broker
           (mkEnv 0 [1 # 3]%Q) demo_app_cfg 0 false None (Some "out.jsonl")
           empty_world).
  left. lia.
Defined.

(** X13: a non-positive [status_boundary_pct] is not rejected up front.  It
    makes the timestep of the first deposit raise [ValueError], before
    anything is published for that deposit, when [publish_every_deposit] is
    off; when it is on, the boundary is never looked at and the deposit
    publishes its one event. *)
Theorem nonpositive_boundary_fails_at_deposit :
  forall (G : Type) (RS : RandomSource G) (sim_cfg : SimulationConfig)
         (ts timestep_index : Z) (rng rng' : Rng G) (loc updated : LocationState)
         (c : ContainerName) (old new : Z),
    step_location rng sim_cfg loc
      = (updated, mkDepositResult true (Some c) (Some old) (Some new), rng') ->
    status_boundary_pct sim_cfg <= 0 ->
    (publish_every_deposit sim_cfg = false ->
       forall (publisher : StatusPublisher) (w : World),
         sim_location_step publisher sim_cfg ts timestep_index rng loc w
         = Raised (ValueError "boundary_pct must be > 0") w)
    /\ (publish_every_deposit sim_cfg = true ->
          forall (publisher : StatusPublisher) (w : World),
            sim_location_step publisher sim_cfg ts timestep_index rng loc w
            = (publish_status publisher
                 (mkStatusMsg ts updated c new timestep_index "status") ;;
               io_ret (updated, rng')) w).
Proof.
  intros G RS sim_cfg ts timestep_index rng rng' loc updated c old new Hstep Hb.
  split; intros Hevery publisher w; unfold sim_location_step; rewrite Hstep;
    unfold publish_deposit; simpl; rewrite Hevery.
  - unfold boundaries_crossed.
    destruct (Z.leb_spec (status_boundary_pct sim_cfg) 0); [reflexivity | lia].
  - reflexivity.
Qed.

Lemma nonpositive_boundary_fails_at_deposit_witness :
  (false = false ->
     forall (publisher : StatusPublisher) (w : World),
       sim_location_step publisher
         (mkSimulationConfig 15 1 25 0 false 0 (Some 0) (Some 42)
            [mkSimulationLocationConfig "a" 55 12])
         0 0 (scripted [0; 1 # 2]%Q) (demo_location 0 19 0) w
       = Raised (ValueError "boundary_pct must be > 0") w)
  /\ (false = true ->
        forall (publisher : StatusPublisher) (w : World),
          sim_location_step publisher
            (mkSimulationConfig 15 1 25 0 false 0 (Some 0) (Some 42)
               [mkSimulationLocationConfig "a" 55 12])
            0 0 (scripted [0; 1 # 2]%Q) (demo_location 0 19 0) w
          = (publish_status publisher
               (mkStatusMsg 0 (demo_location 0 44 0) Center 44 0 "status") ;;
             io_ret (demo_location 0 44 0, mkRng [] 2)) w).
Proof.
  apply (nonpositive_boundary_fails_at_deposit (list Q) scripted_source
           (mkSimulationConfig 15 1 25 0 false 0 (Some 0) (Some 42)
              [mkSimulationLocationConfig "a" 55 12])
           0 0 (scripted [0; 1 # 2]%Q) (mkRng [] 2) (demo_location 0 19 0)
           (demo_location 0 44 0) Center 19 44).
  - reflexivity.
  - simpl. lia.
Defined.

(** A whole run with boundary 0: the three [init] lines are out when the
    first deposit raises, and the log file is closed all the same. *)
Example zero_boundary_run :
  match run_simulation no_broker (mkEnv 0 [1 # 3]%Q) zero_boundary_cfg 3 true None
          (Some "out.jsonl") empty_world with
  | Raised e w =>
      Some (e, line_summary <$> w_stdout w,
            file_closed <$> w_files w !! "out.jsonl")
  | Returned _ _ => None
  end
  = Some (ValueError "boundary_pct must be > 0",
          [("left", 0, -1, "init", 0); ("center", 0, -1, "init", 0);
           ("right", 0, -1, "init", 0)],
          Some true).
Proof. vm_compute. reflexivity. Qed.

(** A run whose second timestamp is out of range: the first timestep is
    published, the addition then raises [OverflowError], and the log file is
    closed all the same. *)
Example far_future_run :
  match run_simulation no_broker (mkEnv 0 [1 # 3]%Q) far_future_cfg 2 true None
          (Some "out.jsonl") empty_world with
  | Raised e w =>
      Some (e, line_summary <$> w_stdout w,
            file_closed <$> w_files w !! "out.jsonl")
  | Returned _ _ => None
  end
  = Some (OverflowError,
          [("left", 0, -1, "init", 0); ("center", 0, -1, "init", 0);
           ("right", 0, -1, "init", 0); ("center", 25, 0, "status", 0);
           ("center", 25, 0, "status", 0)],
          Some true).
Proof. vm_compute. reflexivity. Qed.

Section PureRun.
Context {G : Type} `{RandomSource G}.

Lemma step_location_draw_bounds (rng : Rng G) (sim_cfg : SimulationConfig)
  (loc : LocationState) :
  (draws rng + 1 <= draws (snd (step_location rng sim_cfg loc)) <= draws rng + 3)%nat.
Proof.
  unfold step_location.
  pose proof (rng_random_draws rng) as Hd1.
  destruct (rng_random rng) as [roll rng1]. simpl in Hd1.
  destruct (negb (Qltb roll (arrival_prob sim_cfg))); simpl; [lia|].
  pose proof (pick_preferred_draws rng1) as Hd2.
  destruct (choose_container_cases rng1 (left loc) (center loc) (right loc))
    as [[_ Hc] | [[_ [_ Hc]] | [_ [name [names [_ Hc]]]]]]; rewrite Hc.
  - destruct (fst (_pick_preferred_container rng1)); simpl; lia.
  - simpl. lia.
  - pose proof (rng_choice_draws (snd (_pick_preferred_container rng1)) name names)
      as Hd3.
    destruct (fst (rng_choice (snd (_pick_preferred_container rng1)) name names));
      simpl; lia.
Qed.

Lemma step_location_same_site (rng : Rng G) (sim_cfg : SimulationConfig)
  (loc : LocationState) :
  same_site loc (fst (fst (step_location rng sim_cfg loc))).
Proof.
  pose proof (step_location_cases rng sim_cfg loc) as Hcases.
  destruct (step_location rng sim_cfg loc) as [[loc' dep] rng']. simpl.
  destruct Hcases as [[-> _] | [c [-> _]]]; [repeat split|].
  destruct c; repeat split.
Qed.

Lemma step_all_facts (sim_cfg : SimulationConfig) (locs : list LocationState) :
  forall rng : Rng G,
    length (fst (step_all rng sim_cfg locs)) = length locs
    /\ Forall2 same_site locs (fst (step_all rng sim_cfg locs))
    /\ (draws rng + length locs <= draws (snd (step_all rng sim_cfg locs))
        <= draws rng + 3 * length locs)%nat
    /\ (0 <= bag_fill_delta_pct sim_cfg -> Forall fills_in_range locs ->
        Forall fills_in_range (fst (step_all rng sim_cfg locs))
        /\ Forall2 fills_not_below locs (fst (step_all rng sim_cfg locs))).
Proof.
  induction locs as [|loc rest IH]; intros rng; simpl.
  - split; [reflexivity|]. split; [constructor|]. split; [lia|].
    intros _ _. split; constructor.
  - pose proof (step_location_draw_bounds rng sim_cfg loc) as Hd.
    pose proof (step_location_same_site rng sim_cfg loc) as Hsite.
    pose proof (step_location_keeps_range rng sim_cfg loc) as Hrange.
    destruct (step_location rng sim_cfg loc) as [[updated dep] rng1]. simpl in *.
    specialize (IH rng1).
    destruct (step_all rng1 sim_cfg rest) as [others rng2]. simpl in *.
    destruct IH as (Hlen & Hsites & Hdraws & Hfills).
    split; [lia|]. split; [constructor; assumption|]. split; [lia|].
    intros Hdelta Hall. inversion Hall as [|? ? Hloc Hrest]; subst.
    destruct (Hrange Hloc Hdelta) as [Hr Hm].
    destruct (Hfills Hdelta Hrest) as [Hrs Hms].
    split; constructor; assumption.
Qed.

Lemma same_site_trans (l1 l2 l3 : LocationState) :
  same_site l1 l2 -> same_site l2 l3 -> same_site l1 l3.
Proof. unfold same_site. intros (? & ? & ?) (? & ? & ?). repeat split; congruence. Qed.

Lemma fills_not_below_trans (l1 l2 l3 : LocationState) :
  fills_not_below l1 l2 -> fills_not_below l2 l3 -> fills_not_below l1 l3.
Proof. unfold fills_not_below. intros H12 H23 c. specialize (H12 c). specialize (H23 c). lia. Qed.

Lemma Forall2_trans_rel {A : Type} (R : A -> A -> Prop) :
  (forall x y z, R x y -> R y z -> R x z) ->
  forall l1 l2 l3 : list A, Forall2 R l1 l2 -> Forall2 R l2 l3 -> Forall2 R l1 l3.
Proof.
  intros Htrans l1 l2 l3 H12. revert l3.
  induction H12 as [|x y l1 l2 Hxy _ IH]; intros l3 H23; inversion H23; subst;
    constructor; eauto.
Qed.

Lemma Forall2_refl_rel {A : Type} (R : A -> A -> Prop) :
  (forall x, R x x) -> forall l : list A, Forall2 R l l.
Proof. intros Hrefl l. induction l; constructor; auto. Qed.

Lemma step_rounds_facts (sim_cfg : SimulationConfig) (n : nat) :
  forall (rng : Rng G) (locs : list LocationState),
    length (fst (step_rounds n rng sim_cfg locs)) = length locs
    /\ Forall2 same_site locs (fst (step_rounds n rng sim_cfg locs))
    /\ (draws rng + n * length locs <= draws (snd (step_rounds n rng sim_cfg locs))
        <= draws rng + 3 * (n * length locs))%nat
    /\ (0 <= bag_fill_delta_pct sim_cfg -> Forall fills_in_range locs ->
        Forall fills_in_range (fst (step_rounds n rng sim_cfg locs))
        /\ Forall2 fills_not_below locs (fst (step_rounds n rng sim_cfg locs))).
Proof.
  induction n as [|n IH]; intros rng locs; simpl.
  - split; [reflexivity|].
    split; [apply Forall2_refl_rel; intros x; repeat split|].
    split; [lia|]. intros _ Hall. split; [exact Hall|].
    apply Forall2_refl_rel. intros x c. lia.
  - destruct (step_all_facts sim_cfg locs rng) as (Hlen & Hsites & Hdraws & Hfills).
    destruct (step_all rng sim_cfg locs) as [locs1 rng1]. simpl in *.
    destruct (IH rng1 locs1) as (Hlen' & Hsites' & Hdraws' & Hfills').
    split; [lia|].
    split; [eapply Forall2_trans_rel; [apply same_site_trans | eassumption..]|].
    split; [rewrite Hlen in Hdraws'; lia|].
    intros Hdelta Hall.
    destruct (Hfills Hdelta Hall) as [Hr1 Hm1].
    destruct (Hfills' Hdelta Hr1) as [Hr2 Hm2].
    split; [exact Hr2|].
    eapply Forall2_trans_rel; [apply fills_not_below_trans | eassumption..].
Qed.

Lemma sim_location_step_returns (publisher : StatusPublisher)
  (sim_cfg : SimulationConfig) (ts timestep_index : Z) (rng : Rng G)
  (loc : LocationState) (w w' : World) (r : LocationState * Rng G) :
  sim_location_step publisher sim_cfg ts timestep_index rng loc w = Returned r w' ->
  r = (fst (fst (step_location rng sim_cfg loc)), snd (step_location rng sim_cfg loc)).
Proof.
  unfold sim_location_step.
  destruct (step_location rng sim_cfg loc) as [[updated dep] rng']. simpl.
  unfold io_bind. destruct (publish_deposit _ _ _ _ _ _ w); [|discriminate].
  unfold io_ret. intros [= <- _]. reflexivity.
Qed.

Lemma sim_locations_returns (publisher : StatusPublisher)
  (sim_cfg : SimulationConfig) (ts timestep_index : Z) (locs : list LocationState) :
  forall (rng : Rng G) (w w' : World) (r : list LocationState * Rng G),
    sim_locations publisher sim_cfg ts timestep_index rng locs w = Returned r w' ->
    r = step_all rng sim_cfg locs.
Proof.
  induction locs as [|loc rest IH]; intros rng w w' r; simpl.
  - unfold io_ret. intros [= <- _]. reflexivity.
  - unfold io_bind at 1.
    destruct (sim_location_step publisher sim_cfg ts timestep_index rng loc w)
      as [r1 w1|] eqn:Estep; [|discriminate].
    apply sim_location_step_returns in Estep. subst r1. simpl.
    destruct (step_location rng sim_cfg loc) as [[updated dep] rng1]. simpl.
    unfold io_bind.
    destruct (sim_locations publisher sim_cfg ts timestep_index rng1 rest w1)
      as [rs w2|] eqn:Erest; [|discriminate].
    apply IH in Erest. subst rs.
    unfold io_ret. intros [= <- _].
    destruct (step_all rng1 sim_cfg rest). reflexivity.
Qed.

Lemma sim_timesteps_returns (publisher : StatusPublisher)
  (sim_cfg : SimulationConfig) (start_ts : Z) (indices : list Z) :
  forall (rng : Rng G) (locs : list LocationState) (w w' : World)
         (r : list LocationState * Rng G),
    sim_timesteps publisher sim_cfg start_ts indices rng locs w = Returned r w' ->
    r = step_rounds (length indices) rng sim_cfg locs.
Proof.
  induction indices as [|idx later IH]; intros rng locs w w' r; simpl.
  - unfold io_ret. intros [= <- _]. reflexivity.
  - destruct (timestep_ts start_ts (timestep_minutes sim_cfg) idx) as [ts|e];
      [|discriminate].
    unfold io_bind.
    destruct (sim_locations publisher sim_cfg ts idx rng locs w)
      as [r1 w1|] eqn:Elocs; [|discriminate].
    apply sim_locations_returns in Elocs. subst r1.
    destruct (step_all rng sim_cfg locs) as [locs1 rng1]. simpl.
    apply IH.
Qed.

End PureRun.

(** X14: the publishers have no say in the simulated state.  Whenever the
    timestep loop completes, with any publisher and from any world, it ends
    in the state that stepping the locations alone gives: the same
    locations in the same order (ids and coordinates kept), between one and
    three draws per location and timestep, and, for fills that start in
    [[0, 100]] and a non-negative bag delta, fills that stay in [[0, 100]]
    and are nowhere lower than at the start. *)
Theorem timestep_loop_state :
  forall (G : Type) (RS : RandomSource G) (publisher : StatusPublisher)
         (sim_cfg : SimulationConfig) (start_ts : Z) (indices : list Z)
         (rng rng' : Rng G) (locs locs' : list LocationState) (w w' : World),
    sim_timesteps publisher sim_cfg start_ts indices rng locs w
      = Returned (locs', rng') w' ->
    (locs', rng') = step_rounds (length indices) rng sim_cfg locs
    /\ length locs' = length locs
    /\ Forall2 same_site locs locs'
    /\ (draws rng + length indices * length locs <= draws rng'
        <= draws rng + 3 * (length indices * length locs))%nat
    /\ (0 <= bag_fill_delta_pct sim_cfg -> Forall fills_in_range locs ->
        Forall fills_in_range locs' /\ Forall2 fills_not_below locs locs').
Proof.
  intros G RS publisher sim_cfg start_ts indices rng rng' locs locs' w w' Hrun.
  apply sim_timesteps_returns in Hrun.
  pose proof (step_rounds_facts sim_cfg (length indices) rng locs) as Hfacts.
  rewrite <- Hrun in Hfacts. simpl in Hfacts.
  split; [exact Hrun | exact Hfacts].
Qed.

Lemma timestep_loop_state_witness :
  ([demo_location 25 25 0], mkRng [] 4)
    = step_rounds (length [0; 1]) (scripted [0; 1 # 2; 0; 0]%Q) coarse_sim_cfg
        [demo_location 0 0 0]
  /\ length [demo_location 25 25 0] = length [demo_location 0 0 0]
  /\ Forall2 same_site [demo_location 0 0 0] [demo_location 25 25 0]
  /\ (draws (scripted [0; 1 # 2; 0; 0]%Q) + length [0; 1] * length [demo_location 0 0 0]
      <= draws (mkRng ([] : list Q) 4)
      <= draws (scripted [0; 1 # 2; 0; 0]%Q)
         + 3 * (length [0; 1] * length [demo_location 0 0 0]))%nat
  /\ (0 <= bag_fill_delta_pct coarse_sim_cfg ->
      Forall fills_in_range [demo_location 0 0 0] ->
      Forall fills_in_range [demo_location 25 25 0]
      /\ Forall2 fills_not_below [demo_location 0 0 0] [demo_location 25 25 0]).
Proof.
  apply (timestep_loop_state (list Q) scripted_source NoopStatusPublisher
           coarse_sim_cfg 0 [0; 1] (scripted [0; 1 # 2; 0; 0]%Q) (mkRng [] 4)
           [demo_location 0 0 0] [demo_location 25 25 0] empty_world empty_world).
  vm_compute. reflexivity.
Defined.

Lemma boundaries_crossed_raise (old new b : Z) (e : PyExn) :
  boundaries_crossed old new b = Raise e ->
  e = ValueError "boundary_pct must be > 0" /\ b <= 0.
Proof.
  unfold boundaries_crossed. destruct (Z.leb_spec b 0) as [Hb|Hb].
  - intros [= <-]. split; [reflexivity | exact Hb].
  - destruct (_ <=? _); discriminate.
Qed.

Lemma timestep_ts_ok (start_ts minutes idx ts : Z) :
  timestep_ts start_ts minutes idx = Ok ts ->
  ts = start_ts + timedelta_minutes (minutes * idx).
Proof.
  unfold timestep_ts, py_timedelta_minutes, datetime_add.
  destruct (_ || _); [discriminate|].
  destruct (_ || _); [discriminate|].
  intros [= <-]. reflexivity.
Qed.

Lemma timestep_ts_raise (start_ts minutes idx : Z) (e : PyExn) :
  timestep_ts start_ts minutes idx = Raise e -> e = OverflowError.
Proof.
  unfold timestep_ts, py_timedelta_minutes, datetime_add.
  destruct (_ || _); [intros [= <-]; reflexivity|].
  destruct (_ || _); [intros [= <-]; reflexivity|discriminate].
Qed.

(** *** Runs with a publisher that records every message *)

Section Recording.
Context {G : Type} `{RandomSource G}.
Variables (p : StatusPublisher) (mqtt_cfg : MqttConfig).
Variables (Inv : World -> Prop) (tr : World -> list Line).
Hypothesis p_records :
  forall (m : StatusMsg) (w : World),
    Inv w ->
    exists w' : World,
      publish_status p m w = Returned tt w'
      /\ Inv w' /\ tr w' = tr w ++ [msg_line mqtt_cfg m].

Lemma rec_for {A : Type} (xs : list A) (body : A -> IO unit) (lines : A -> list Line) :
  (forall (x : A) (w : World),
     Inv w ->
     exists w' : World,
       body x w = Returned tt w' /\ Inv w' /\ tr w' = tr w ++ lines x) ->
  forall w : World,
    Inv w ->
    exists w' : World,
      io_for xs body w = Returned tt w' /\ Inv w' /\ tr w' = tr w ++ (xs ≫= lines).
Proof.
  intros Hbody. induction xs as [|x xs IH]; intros w Hw.
  - exists w. simpl. rewrite app_nil_r. auto.
  - destruct (Hbody x w Hw) as (w1 & Hx & Hw1 & Htr1).
    destruct (IH w1 Hw1) as (w2 & Hxs & Hw2 & Htr2).
    exists w2. rewrite io_for_cons, Hx, Hxs.
    split; [reflexivity|]. split; [exact Hw2|].
    rewrite Htr2, Htr1, <- app_assoc. reflexivity.
Qed.

Lemma rec_init (start_ts : Z) (locs : list LocationState) (w : World) :
  Inv w ->
  exists w' : World,
    publish_init p start_ts locs w = Returned tt w'
    /\ Inv w' /\ tr w' = tr w ++ init_lines mqtt_cfg start_ts locs.
Proof.
  intros Hw. unfold publish_init, init_lines.
  apply (rec_for locs _
           (fun loc =>
              (fun c => msg_line mqtt_cfg
                 (mkStatusMsg start_ts loc c (fill_pct (get_container loc c)) (-1)
                    "init")) <$> [Left; Center; Right])); [|exact Hw].
  intros loc w0 Hw0.
  destruct (rec_for [Left; Center; Right]
              (fun container_name =>
                 publish_status p
                   (mkStatusMsg start_ts loc container_name
                      (fill_pct (get_container loc container_name)) (-1) "init"))
              (fun c => [msg_line mqtt_cfg
                 (mkStatusMsg start_ts loc c (fill_pct (get_container loc c)) (-1)
                    "init")])) with (w := w0) as (w1 & Hrun & Hw1 & Htr1).
  - intros c w2 Hw2. apply p_records, Hw2.
  - exact Hw0.
  - exists w1. split; [exact Hrun|]. split; [exact Hw1|]. rewrite Htr1. reflexivity.
Qed.

Lemma rec_deposit (sim_cfg : SimulationConfig) (ts idx : Z)
  (rng : Rng G) (loc : LocationState) (w : World) :
  Inv w ->
  io_post
    (publish_deposit p sim_cfg ts idx (fst (fst (step_location rng sim_cfg loc)))
       (snd (fst (step_location rng sim_cfg loc)))) w
    (fun _ w' =>
       Inv w'
       /\ exists extra : list Line,
            tr w' = tr w ++ extra
            /\ Forall (line_of mqtt_cfg ts idx (fst (fst (step_location rng sim_cfg loc))))
                 extra)
    (fun e w' => w' = w /\ bad_boundary sim_cfg e).
Proof.
  intros Hw.
  pose proof (step_location_cases rng sim_cfg loc) as Hcases.
  destruct (step_location rng sim_cfg loc) as [[updated dep] rng']. simpl.
  unfold io_post, publish_deposit.
  destruct Hcases as [[-> ->] | [c [-> ->]]]; simpl.
  - split; [exact Hw|]. exists []. rewrite app_nil_r. split; [reflexivity | constructor].
  - set (new := Z.min 100 (fill_pct (get_container loc c)
                           + bag_fill_delta_pct sim_cfg)).
    set (updated := with_fill loc c new).
    assert (Hline : forall m : StatusMsg,
              m = mkStatusMsg ts updated c new idx "status" ->
              line_of mqtt_cfg ts idx updated (msg_line mqtt_cfg m)).
    { intros m ->. exists c. unfold updated. rewrite with_fill_same. reflexivity. }
    destruct (publish_every_deposit sim_cfg) eqn:Hevery.
    + destruct (p_records (mkStatusMsg ts updated c new idx "status") w Hw)
        as (w1 & -> & Hw1 & Htr1).
      split; [exact Hw1|]. eexists. split; [exact Htr1|].
      constructor; [apply Hline; reflexivity | constructor].
    + destruct (boundaries_crossed (fill_pct (get_container loc c)) new
                  (status_boundary_pct sim_cfg)) as [bs|e] eqn:Hbs.
      * destruct (rec_for bs
                    (fun _boundary =>
                       publish_status p (mkStatusMsg ts updated c new idx "status"))
                    (fun _ => [msg_line mqtt_cfg
                                 (mkStatusMsg ts updated c new idx "status")]))
          with (w := w) as (w1 & Hrun & Hw1 & Htr1).
        -- intros _ w2 Hw2. apply p_records, Hw2.
        -- exact Hw.
        -- rewrite Hrun. split; [exact Hw1|]. eexists. split; [exact Htr1|].
           apply Forall_bind, Forall_forall. intros b _.
           constructor; [apply Hline; reflexivity | constructor].
      * apply boundaries_crossed_raise in Hbs. destruct Hbs as [-> Hbad].
        simpl. split; [reflexivity|]. split; [reflexivity|]. split; assumption.
Qed.

Lemma rec_location_step (sim_cfg : SimulationConfig) (ts idx : Z)
  (rng : Rng G) (loc : LocationState) (w : World) :
  Inv w ->
  io_post (sim_location_step p sim_cfg ts idx rng loc) w
    (fun r w' =>
       Inv w'
       /\ exists extra : list Line,
            tr w' = tr w ++ extra /\ Forall (line_of mqtt_cfg ts idx (fst r)) extra)
    (fun e w' => w' = w /\ bad_boundary sim_cfg e).
Proof.
  intros Hw. pose proof (rec_deposit sim_cfg ts idx rng loc w Hw) as Hdep.
  unfold sim_location_step.
  destruct (step_location rng sim_cfg loc) as [[updated dep] rng']. simpl in Hdep.
  unfold io_post, io_bind in *.
  destruct (publish_deposit p sim_cfg ts idx updated dep w); simpl; exact Hdep.
Qed.

Lemma line_of_ok (sim_cfg : SimulationConfig) (start_ts steps idx : Z)
  (site : SimulationLocationConfig) (loc' : LocationState) (l : Line) :
  at_site site loc' -> site ∈ locations sim_cfg -> fills_in_range loc' ->
  0 <= idx < steps ->
  line_of mqtt_cfg
    (start_ts + timedelta_minutes (timestep_minutes sim_cfg * idx)) idx loc' l ->
  status_line_ok mqtt_cfg sim_cfg start_ts steps l.
Proof.
  intros (Hid & Hlat & Hlon) Hin Hrange Hidx [c ->].
  exists site, c, idx, (fill_pct (get_container loc' c)).
  split; [exact Hin|]. split; [exact Hidx|]. split; [apply Hrange|].
  unfold msg_line, msg_topic, msg_payload, status_suffix, make_status_payload. simpl.
  rewrite Hid, Hlat, Hlon. reflexivity.
Qed.

Lemma at_site_step (sites : list SimulationLocationConfig)
  (locs locs' : list LocationState) :
  Forall2 at_site sites locs -> Forall2 same_site locs locs' ->
  Forall2 at_site sites locs'.
Proof.
  intros Hsites. revert locs'.
  induction Hsites as [|site loc sites locs (Hid & Hlat & Hlon) _ IH];
    intros locs' Hsame; inversion Hsame as [|? loc' ? ? (Hid' & Hlat' & Hlon') Hrest];
    subst; constructor; [|apply IH, Hrest].
  repeat split; congruence.
Qed.

Section OneRun.
Variables (sim_cfg : SimulationConfig) (start_ts steps : Z).
Hypothesis delta_nonneg : 0 <= bag_fill_delta_pct sim_cfg.

(** What holds of the world whenever a loop of the run ends, returned or
    raised: the invariant, and a trace grown by valid status lines. *)
Definition run_post (w w' : World) : Prop :=
  Inv w'
  /\ exists extra : list Line,
       tr w' = tr w ++ extra
       /\ Forall (status_line_ok mqtt_cfg sim_cfg start_ts steps) extra.

Lemma run_post_refl (w : World) : Inv w -> run_post w w.
Proof.
  intros Hw. split; [exact Hw|]. exists []. rewrite app_nil_r.
  split; [reflexivity | constructor].
Qed.

Lemma run_post_trans (w1 w2 w3 : World) :
  run_post w1 w2 -> run_post w2 w3 -> run_post w1 w3.
Proof.
  intros (_ & e1 & Ht1 & Hf1) (Hw3 & e2 & Ht2 & Hf2).
  split; [exact Hw3|]. exists (e1 ++ e2).
  rewrite Ht2, Ht1, <- app_assoc. split; [reflexivity|].
  apply Forall_app. split; assumption.
Qed.

Lemma rec_locations (idx : Z) (sites : list SimulationLocationConfig) :
  0 <= idx < steps ->
  forall (locs : list LocationState) (rng : Rng G) (w : World),
    Inv w ->
    Forall2 at_site sites locs ->
    Forall (fun site => site ∈ locations sim_cfg) sites ->
    Forall fills_in_range locs ->
    io_post
      (sim_locations p sim_cfg
         (start_ts + timedelta_minutes (timestep_minutes sim_cfg * idx)) idx rng locs) w
      (fun _ w' => run_post w w')
      (fun e w' => run_post w w' /\ bad_boundary sim_cfg e).
Proof.
  intros Hidx locs. revert sites.
  induction locs as [|loc rest IH]; intros sites rng w Hw Hsites Hin Hrange.
  - unfold io_post. simpl. apply run_post_refl, Hw.
  - inversion Hsites as [|site ? sites' ? Hsite Hsites']; subst.
    inversion Hin as [|? ? Hsite_in Hin']; subst.
    inversion Hrange as [|? ? Hloc Hrest]; subst.
    pose proof (rec_location_step sim_cfg
                  (start_ts + timedelta_minutes (timestep_minutes sim_cfg * idx))
                  idx rng loc w Hw) as Hstep.
    unfold io_post in *. cbn [sim_locations]. unfold io_bind at 1.
    destruct (sim_location_step p sim_cfg _ idx rng loc w) as [r1 w1 | e w1] eqn:Estep.
    + apply sim_location_step_returns in Estep.
      destruct Hstep as (Hw1 & extra & Htr1 & Hlines).
      assert (Hupd_site : at_site site (fst r1)).
      { rewrite Estep. simpl.
        destruct (step_location_same_site rng sim_cfg loc) as (Hi & Hla & Hlo).
        destruct Hsite as (Hi0 & Hla0 & Hlo0). repeat split; congruence. }
      assert (Hupd_range : fills_in_range (fst r1)).
      { rewrite Estep. simpl.
        apply (step_location_keeps_range rng sim_cfg loc Hloc delta_nonneg). }
      assert (Hpost1 : run_post w w1).
      { split; [exact Hw1|]. exists extra. split; [exact Htr1|].
        eapply Forall_impl; [exact Hlines|]. intros l Hl.
        eapply line_of_ok; eassumption. }
      specialize (IH sites' (snd r1) w1 Hw1 Hsites' Hin' Hrest).
      unfold io_bind.
      destruct (sim_locations p sim_cfg _ idx (snd r1) rest w1) as [rs w2 | e w2].
      * simpl. eapply run_post_trans; eassumption.
      * destruct IH as [Hpost2 Hbad]. split; [|exact Hbad].
        eapply run_post_trans; eassumption.
    + destruct Hstep as [-> Hbad]. split; [apply run_post_refl, Hw | exact Hbad].
Qed.

(** Why a run stops: a boundary that is not positive, or a timestamp that
    cannot be computed. *)
Definition run_stops (e : PyExn) : Prop :=
  bad_boundary sim_cfg e \/ bad_timestamp sim_cfg start_ts steps e.

Lemma rec_timesteps (indices : list Z) :
  Forall (fun idx => 0 <= idx < steps) indices ->
  forall (sites : list SimulationLocationConfig) (locs : list LocationState)
         (rng : Rng G) (w : World),
    Inv w ->
    Forall2 at_site sites locs ->
    Forall (fun site => site ∈ locations sim_cfg) sites ->
    Forall fills_in_range locs ->
    io_post (sim_timesteps p sim_cfg start_ts indices rng locs) w
      (fun _ w' => run_post w w')
      (fun e w' => run_post w w' /\ run_stops e).
Proof.
  induction indices as [|idx later IH]; intros Hidx sites locs rng w Hw Hsites Hin Hrange.
  - unfold io_post. simpl. apply run_post_refl, Hw.
  - inversion Hidx as [|? ? Hi Hlater]; subst.
    pose proof (rec_locations idx sites Hi locs rng w Hw Hsites Hin Hrange) as Hlocs.
    unfold io_post in *. cbn [sim_timesteps].
    destruct (timestep_ts start_ts (timestep_minutes sim_cfg) idx) as [ts|e] eqn:Ets.
    + apply timestep_ts_ok in Ets. subst ts. unfold io_bind.
      destruct (sim_locations p sim_cfg _ idx rng locs w) as [r1 w1 | e w1] eqn:Erun.
      * apply sim_locations_returns in Erun.
        destruct (step_all_facts sim_cfg locs rng) as (_ & Hsame & _ & Hfills).
        rewrite <- Erun in Hsame, Hfills.
        destruct (Hfills delta_nonneg Hrange) as [Hrange1 _].
        destruct Hlocs as [Hw1 Hext1].
        specialize (IH Hlater sites (fst r1) (snd r1) w1 Hw1
                      (at_site_step sites locs (fst r1) Hsites Hsame) Hin Hrange1).
        destruct (sim_timesteps p sim_cfg start_ts later (snd r1) (fst r1) w1)
          as [r2 w2 | e w2].
        -- eapply run_post_trans; [split|]; eassumption.
        -- destruct IH as [Hpost2 Hstop]. split; [|exact Hstop].
           eapply run_post_trans; [split|]; eassumption.
      * destruct Hlocs as [Hpost Hbad]. split; [exact Hpost | left; exact Hbad].
    + unfold io_raise. split; [apply run_post_refl, Hw|].
      right. exists idx. split; [exact Hi | exact Ets].
Qed.

Lemma initial_locations_at_site (sites : list SimulationLocationConfig) :
  Forall2 at_site sites (_initial_location_state <$> sites)
  /\ Forall fills_in_range (_initial_location_state <$> sites).
Proof.
  induction sites as [|site sites [IH1 IH2]]; [split; constructor|].
  split; constructor; try assumption.
  - repeat split.
  - intros c. destruct c; simpl; lia.
Qed.

(** The body of the [try] of [run_simulation], for the initial locations. *)
Lemma rec_body (rng : Rng G) (w : World) :
  Inv w ->
  let locs := _initial_location_state <$> locations sim_cfg in
  io_post
    (publish_init p start_ts locs ;;
     sim_timesteps p sim_cfg start_ts (py_range 0 steps) rng locs ;;
     io_ret tt) w
    (fun _ w' =>
       Inv w'
       /\ exists extra : list Line,
            tr w' = tr w ++ init_lines mqtt_cfg start_ts locs ++ extra
            /\ Forall (status_line_ok mqtt_cfg sim_cfg start_ts steps) extra)
    (fun e w' =>
       (Inv w'
        /\ exists extra : list Line,
             tr w' = tr w ++ init_lines mqtt_cfg start_ts locs ++ extra
             /\ Forall (status_line_ok mqtt_cfg sim_cfg start_ts steps) extra)
       /\ run_stops e).
Proof.
  intros Hw locs.
  destruct (rec_init start_ts locs w Hw) as (w1 & Hinit & Hw1 & Htr1).
  destruct (initial_locations_at_site (locations sim_cfg)) as [Hsites Hrange].
  assert (Hidx : Forall (fun idx => 0 <= idx < steps) (py_range 0 steps)).
  { unfold py_range. apply Forall_seqZ. intros i Hi. lia. }
  assert (Hin : Forall (fun site => site ∈ locations sim_cfg) (locations sim_cfg)).
  { apply Forall_forall. auto. }
  pose proof (rec_timesteps (py_range 0 steps) Hidx (locations sim_cfg) locs rng w1
                Hw1 Hsites Hin Hrange) as Hloop.
  unfold io_post in *. unfold io_bind at 1. rewrite Hinit. unfold io_bind.
  assert (Hjoin : forall w2 : World,
            run_post w1 w2 ->
            Inv w2
            /\ exists extra : list Line,
                 tr w2 = tr w ++ init_lines mqtt_cfg start_ts locs ++ extra
                 /\ Forall (status_line_ok mqtt_cfg sim_cfg start_ts steps) extra).
  { intros w2 (Hw2 & extra & Htr2 & Hok). split; [exact Hw2|].
    exists extra. rewrite Htr2, Htr1, <- app_assoc. split; [reflexivity | exact Hok]. }
  destruct (sim_timesteps p sim_cfg start_ts (py_range 0 steps) rng locs w1)
    as [r w2 | e w2]; simpl.
  - apply Hjoin, Hloop.
  - destruct Hloop as [Hpost Hbad]. split; [apply Hjoin, Hpost | exact Hbad].
Qed.

End OneRun.

End Recording.

Lemma run_stops_excluded (sim_cfg : SimulationConfig) (start_ts steps : Z) (e : PyExn) :
  bad_boundary sim_cfg e \/ bad_timestamp sim_cfg start_ts steps e ->
  0 < status_boundary_pct sim_cfg \/ publish_every_deposit sim_cfg = true ->
  timestamps_ok sim_cfg start_ts steps ->
  False.
Proof.
  intros [(_ & Hbad & Hevery) | (idx & Hidx & Hraise)] Hcfg Hts.
  - destruct Hcfg as [Hpos | Hpub]; [lia | congruence].
  - destruct (Hts idx Hidx) as [ts Hok]. congruence.
Qed.

Lemma stdout_records (mqtt_cfg : MqttConfig) (files : gmap string FileState)
  (broker : list BrokerMsg) (m : StatusMsg) (w : World) :
  w_files w = files /\ w_broker w = broker ->
  exists w' : World,
    publish_status (StdoutStatusPublisher mqtt_cfg) m w = Returned tt w'
    /\ (w_files w' = files /\ w_broker w' = broker)
    /\ w_stdout w' = w_stdout w ++ [msg_line mqtt_cfg m].
Proof.
  intros [Hf Hb]. eexists. split; [reflexivity|]. simpl. auto.
Qed.

Lemma io_finally_nothing {A : Type} (body : IO A) (w : World) :
  io_finally body (io_ret tt ;; io_ret tt) w = body w.
Proof. unfold io_finally. destruct (body w); reflexivity. Qed.

(** A dry run without a log file is the body of its [try]. *)
Lemma run_simulation_dry_no_log {G : Type} `{RandomSource G}
  (connect_mqtt : MqttConfig -> IO MqttClientHandle) (env : Env G)
  (cfg : AppConfig) (sim_cfg : SimulationConfig) (steps : Z)
  (seed_override : option Z) (w : World) :
  simulation cfg = Some sim_cfg -> 0 < steps -> locations sim_cfg <> [] ->
  run_simulation connect_mqtt env cfg steps true seed_override None w
  = (let start_ts := match start_time sim_cfg with
                     | Some t => t
                     | None => env_now env
                     end in
     let publisher := StdoutStatusPublisher (mqtt cfg) in
     let locs := _initial_location_state <$> locations sim_cfg in
     publish_init publisher start_ts locs ;;
     sim_timesteps publisher sim_cfg start_ts (py_range 0 steps)
       (Random env match seed_override with
                   | Some s => Some s
                   | None => seed sim_cfg
                   end) locs ;;
     io_ret tt) w.
Proof.
  intros Hsim Hsteps Hlocs. unfold run_simulation. rewrite Hsim.
  destruct (Z.leb_spec steps 0) as [?|_]; [lia|].
  destruct (locations sim_cfg) as [|site sites] eqn:Elocs; [congruence|].
  rewrite <- Elocs. cbv zeta.
  etransitivity; [|apply io_finally_nothing]. reflexivity.
Qed.

(** X15: what a dry run without a log file prints.  For a valid
    configuration with a non-negative bag delta, the console receives, after
    what it held, one [init] line per container of every configured location
    (fill 0, index -1, the start time), then only status lines of configured
    locations with a timestep index in [[0, steps)], the timestamp of that
    timestep and a fill in [[0, 100]]; files and broker are not touched.
    This holds however the run ends (printing itself is taken to succeed).
    The run returns normally when the
    boundary is positive or every deposit is published, every timestamp
    [start + index * timestep_minutes] of the run is a date [datetime] can
    hold, and no pause is configured ([step_delay_s <= 0]). *)
Theorem dry_run_console_trace :
  forall (G : Type) (RS : RandomSource G)
         (connect_mqtt : MqttConfig -> IO MqttClientHandle) (env : Env G)
         (cfg : AppConfig) (sim_cfg : SimulationConfig) (steps : Z)
         (seed_override : option Z) (w : World),
    simulation cfg = Some sim_cfg ->
    0 < steps ->
    locations sim_cfg <> [] ->
    0 <= bag_fill_delta_pct sim_cfg ->
    let start_ts := match start_time sim_cfg with
                    | Some t => t
                    | None => env_now env
                    end in
    let out := run_simulation connect_mqtt env cfg steps true seed_override None w in
    exists status_lines : list Line,
      w_stdout (world_of out)
        = w_stdout w
          ++ init_lines (mqtt cfg) start_ts (_initial_location_state <$> locations sim_cfg)
          ++ status_lines
      /\ Forall (status_line_ok (mqtt cfg) sim_cfg start_ts steps) status_lines
      /\ w_files (world_of out) = w_files w
      /\ w_broker (world_of out) = w_broker w
      /\ (0 < status_boundary_pct sim_cfg \/ publish_every_deposit sim_cfg = true ->
          timestamps_ok sim_cfg start_ts steps ->
          (step_delay_s sim_cfg <= 0)%Q ->
          out = Returned tt (world_of out)).
Proof.
  intros G RS connect_mqtt env cfg sim_cfg steps seed_override w Hsim Hsteps Hlocs
         Hdelta start_ts out.
  subst out.
  rewrite (run_simulation_dry_no_log connect_mqtt env cfg sim_cfg steps seed_override
             w Hsim Hsteps Hlocs).
  cbv zeta. fold start_ts.
  set (rng := Random env _).
  pose proof (rec_body (StdoutStatusPublisher (mqtt cfg)) (mqtt cfg)
                (fun w0 => w_files w0 = w_files w /\ w_broker w0 = w_broker w)
                w_stdout
                (stdout_records (mqtt cfg) (w_files w) (w_broker w))
                sim_cfg start_ts steps Hdelta rng w (conj eq_refl eq_refl)) as Hbody.
  cbv zeta in Hbody. unfold io_post in Hbody.
  match type of Hbody with
  | match ?body w with _ => _ end => destruct (body w) as [[] w' | e w']
  end; simpl.
  - destruct Hbody as ((Hf & Hb) & extra & Htr & Hok).
    exists extra. auto.
  - destruct Hbody as (((Hf & Hb) & extra & Htr & Hok) & Hstop).
    exists extra. split; [exact Htr|]. split; [exact Hok|].
    split; [exact Hf|]. split; [exact Hb|].
    intros Hcfg Hts _. exfalso.
    exact (run_stops_excluded sim_cfg start_ts steps e Hstop Hcfg Hts).
Qed.

Lemma tee_log_console_records (mqtt_cfg : MqttConfig) (path : string)
  (files : gmap string FileState) (broker : list BrokerMsg) (printed : list Line)
  (m : StatusMsg) (w : World) :
  (w_broker w = broker
   /\ exists logged : list Line,
        w_files w = <[path := mkFileState false logged]> files
        /\ w_stdout w = printed ++ logged) ->
  exists w' : World,
    publish_status
      (TeeStatusPublisher ([JsonlFileStatusPublisher mqtt_cfg path]
                           ++ [StdoutStatusPublisher mqtt_cfg])) m w
    = Returned tt w'
    /\ (w_broker w' = broker
        /\ exists logged : list Line,
             w_files w' = <[path := mkFileState false logged]> files
             /\ w_stdout w' = printed ++ logged)
    /\ w_stdout w' = w_stdout w ++ [msg_line mqtt_cfg m].
Proof.
  intros (Hb & logged & Hf & Hs).
  rewrite publish_status_tee. unfold tee_publish. simpl.
  unfold io_bind, fp_write. rewrite Hf, lookup_insert_eq. simpl.
  eexists. split; [reflexivity|]. simpl. split; [|reflexivity].
  split; [exact Hb|]. exists (logged ++ [msg_line mqtt_cfg m]).
  rewrite insert_insert_eq, Hs, <- app_assoc. split; reflexivity.
Qed.

(** A dry run with a log file: the file is opened, the body of the [try]
    runs with the fan-out of log and console, and the file is closed. *)
Lemma run_simulation_dry_log {G : Type} `{RandomSource G}
  (connect_mqtt : MqttConfig -> IO MqttClientHandle) (env : Env G)
  (cfg : AppConfig) (sim_cfg : SimulationConfig) (steps : Z)
  (seed_override : option Z) (path : string) (w : World) :
  simulation cfg = Some sim_cfg -> 0 < steps -> locations sim_cfg <> [] ->
  path <> "" ->
  run_simulation connect_mqtt env cfg steps true seed_override (Some path) w
  = io_finally
      (let start_ts := match start_time sim_cfg with
                       | Some t => t
                       | None => env_now env
                       end in
       let publisher :=
         TeeStatusPublisher ([JsonlFileStatusPublisher (mqtt cfg) path]
                             ++ [StdoutStatusPublisher (mqtt cfg)]) in
       let locs := _initial_location_state <$> locations sim_cfg in
       publish_init publisher start_ts locs ;;
       sim_timesteps publisher sim_cfg start_ts (py_range 0 steps)
         (Random env match seed_override with
                     | Some s => Some s
                     | None => seed sim_cfg
                     end) locs ;;
       io_ret tt)
      (fp_close path ;; io_ret tt)
      (mkWorld (w_stdout w) (<[path := mkFileState false []]> (w_files w))
         (w_broker w)).
Proof.
  intros Hsim Hsteps Hlocs Hpath. unfold run_simulation. rewrite Hsim.
  destruct (Z.leb_spec steps 0) as [?|_]; [lia|].
  destruct (locations sim_cfg) as [|site sites] eqn:Elocs; [congruence|].
  rewrite <- Elocs.
  assert (Hne : String.eqb path "" = false) by (apply String.eqb_neq; exact Hpath).
  rewrite Hne. reflexivity.
Qed.

(** X16: a dry run whose log file opens logs what it prints.  When
    [open(log_file, "w")] has returned the handle [log_fp], leaving the world
    [w1], then however the run ends from there (returned or raised) the log
    file is closed at the end and holds exactly the lines the run printed on
    the console, in the same order: the [init] lines, then valid status
    lines (writes to the open file and printing are taken to succeed).  Other
    files and the broker are not touched.  The run returns
    normally when the boundary is positive or every deposit is published,
    every timestamp of the run is a date [datetime] can hold, and no pause is
    configured ([step_delay_s <= 0]). *)
Theorem dry_run_log_matches_console :
  forall (G : Type) (RS : RandomSource G)
         (connect_mqtt : MqttConfig -> IO MqttClientHandle) (env : Env G)
         (cfg : AppConfig) (sim_cfg : SimulationConfig) (steps : Z)
         (seed_override : option Z) (path log_fp : string) (w w1 : World),
    simulation cfg = Some sim_cfg ->
    0 < steps ->
    locations sim_cfg <> [] ->
    0 <= bag_fill_delta_pct sim_cfg ->
    path <> "" ->
    open_w path w = Returned log_fp w1 ->
    let start_ts := match start_time sim_cfg with
                    | Some t => t
                    | None => env_now env
                    end in
    let out :=
      run_simulation connect_mqtt env cfg steps true seed_override (Some path) w in
    exists status_lines : list Line,
      let logged :=
        init_lines (mqtt cfg) start_ts (_initial_location_state <$> locations sim_cfg)
        ++ status_lines in
      Forall (status_line_ok (mqtt cfg) sim_cfg start_ts steps) status_lines
      /\ w_stdout (world_of out) = w_stdout w1 ++ logged
      /\ w_files (world_of out) = <[log_fp := mkFileState true logged]> (w_files w1)
      /\ w_broker (world_of out) = w_broker w1
      /\ (0 < status_boundary_pct sim_cfg \/ publish_every_deposit sim_cfg = true ->
          timestamps_ok sim_cfg start_ts steps ->
          (step_delay_s sim_cfg <= 0)%Q ->
          out = Returned tt (world_of out)).
Proof.
  intros G RS connect_mqtt env cfg sim_cfg steps seed_override path log_fp w w0 Hsim
         Hsteps Hlocs Hdelta Hpath Hopen start_ts out.
  unfold open_w in Hopen. injection Hopen as <- <-. cbn [w_stdout w_files w_broker].
  subst out.
  rewrite (run_simulation_dry_log connect_mqtt env cfg sim_cfg steps seed_override
             path w Hsim Hsteps Hlocs Hpath).
  cbv zeta. fold start_ts.
  set (rng := Random env _).
  set (w1 := mkWorld (w_stdout w) (<[path := mkFileState false []]> (w_files w))
               (w_broker w)).
  assert (Hw1 : w_broker w1 = w_broker w
                /\ exists logged : list Line,
                     w_files w1 = <[path := mkFileState false logged]> (w_files w)
                     /\ w_stdout w1 = w_stdout w ++ logged).
  { split; [reflexivity|]. exists []. simpl. rewrite app_nil_r. split; reflexivity. }
  pose proof (rec_body _ (mqtt cfg) _ w_stdout
                (tee_log_console_records (mqtt cfg) path (w_files w) (w_broker w)
                   (w_stdout w))
                sim_cfg start_ts steps Hdelta rng w1 Hw1) as Hbody.
  cbv zeta in Hbody. unfold io_post in Hbody. unfold io_finally.
  assert (Hclose : forall (w' : World) (extra : list Line),
            (w_broker w' = w_broker w
             /\ exists logged : list Line,
                  w_files w' = <[path := mkFileState false logged]> (w_files w)
                  /\ w_stdout w' = w_stdout w ++ logged) ->
            w_stdout w'
              = w_stdout w1
                ++ init_lines (mqtt cfg) start_ts
                     (_initial_location_state <$> locations sim_cfg) ++ extra ->
            exists w'' : World,
              (fp_close path ;; io_ret tt) w' = Returned tt w''
              /\ w_stdout w''
                 = w_stdout w
                   ++ init_lines (mqtt cfg) start_ts
                        (_initial_location_state <$> locations sim_cfg) ++ extra
              /\ w_files w''
                 = <[path :=
                       mkFileState true
                         (init_lines (mqtt cfg) start_ts
                            (_initial_location_state <$> locations sim_cfg) ++ extra)]>
                     (w_files w)
              /\ w_broker w'' = w_broker w).
  { intros w' extra (Hb & logged & Hf & Hs) Htr.
    unfold io_bind, fp_close. rewrite Hf, lookup_insert_eq. simpl.
    eexists. split; [reflexivity|]. simpl.
    assert (Hlogged : logged
                      = init_lines (mqtt cfg) start_ts
                          (_initial_location_state <$> locations sim_cfg) ++ extra).
    { rewrite Hs in Htr. simpl in Htr. apply app_inv_head in Htr. exact Htr. }
    rewrite insert_insert_eq, <- Hlogged, Hs. auto. }
  match type of Hbody with
  | match ?body w1 with _ => _ end => destruct (body w1) as [[] w' | e w']
  end.
  - destruct Hbody as (Hinv & extra & Htr & Hok).
    destruct (Hclose w' extra Hinv Htr) as (w'' & -> & Hs & Hf & Hb).
    exists extra. simpl. rewrite insert_insert_eq. auto.
  - destruct Hbody as ((Hinv & extra & Htr & Hok) & Hstop).
    destruct (Hclose w' extra Hinv Htr) as (w'' & -> & Hs & Hf & Hb).
    exists extra. simpl. rewrite insert_insert_eq.
    split; [exact Hok|]. split; [exact Hs|].
    split; [exact Hf|]. split; [exact Hb|].
    intros Hcfg Hts _. exfalso.
    exact (run_stops_excluded sim_cfg start_ts steps e Hstop Hcfg Hts).
Qed.

Lemma dry_run_console_trace_witness :
  exists status_lines : list Line,
    w_stdout (world_of (run_simulation no_broker (mkEnv 7 [1 # 3]%Q) coarse_app_cfg 2
                          true None None empty_world))
      = w_stdout empty_world
        ++ init_lines demo_mqtt_cfg 0
             (_initial_location_state <$> locations coarse_sim_cfg)
        ++ status_lines
    /\ Forall (status_line_ok demo_mqtt_cfg coarse_sim_cfg 0 2) status_lines
    /\ w_files (world_of (run_simulation no_broker (mkEnv 7 [1 # 3]%Q) coarse_app_cfg 2
                            true None None empty_world))
       = w_files empty_world
    /\ w_broker (world_of (run_simulation no_broker (mkEnv 7 [1 # 3]%Q) coarse_app_cfg
                             2 true None None empty_world))
       = w_broker empty_world
    /\ (0 < status_boundary_pct coarse_sim_cfg
        \/ publish_every_deposit coarse_sim_cfg = true ->
        timestamps_ok coarse_sim_cfg 0 2 ->
        (step_delay_s coarse_sim_cfg <= 0)%Q ->
        run_simulation no_broker (mkEnv 7 [1 # 3]%Q) coarse_app_cfg 2 true None None
          empty_world
        = Returned tt
            (world_of (run_simulation no_broker (mkEnv 7 [1 # 3]%Q) coarse_app_cfg 2
                         true None None empty_world))).
Proof.
  apply (dry_run_console_trace (list Q) scripted_source no_broker
           (mkEnv 7 [1 # 3]%Q) coarse_app_cfg coarse_sim_cfg 2 None empty_world).
  - reflexivity.
  - lia.
  - discriminate.
  - simpl. lia.
Defined.

Lemma dry_run_log_matches_console_witness :
  exists status_lines : list Line,
    let logged :=
      init_lines demo_mqtt_cfg 0 (_initial_location_state <$> locations coarse_sim_cfg)
      ++ status_lines in
    Forall (status_line_ok demo_mqtt_cfg coarse_sim_cfg 0 2) status_lines
    /\ w_stdout (world_of (run_simulation no_broker (mkEnv 7 [1 # 3]%Q) coarse_app_cfg
                             2 true None (Some "out.jsonl") empty_world))
       = w_stdout (mkWorld [] (<["out.jsonl" := mkFileState false []]> ∅) []) ++ logged
    /\ w_files (world_of (run_simulation no_broker (mkEnv 7 [1 # 3]%Q) coarse_app_cfg 2
                            true None (Some "out.jsonl") empty_world))
       = <["out.jsonl" := mkFileState true logged]>
           (w_files (mkWorld [] (<["out.jsonl" := mkFileState false []]> ∅) []))
    /\ w_broker (world_of (run_simulation no_broker (mkEnv 7 [1 # 3]%Q) coarse_app_cfg
                             2 true None (Some "out.jsonl") empty_world))
       = w_broker (mkWorld [] (<["out.jsonl" := mkFileState false []]> ∅) [])
    /\ (0 < status_boundary_pct coarse_sim_cfg
        \/ publish_every_deposit coarse_sim_cfg = true ->
        timestamps_ok coarse_sim_cfg 0 2 ->
        (step_delay_s coarse_sim_cfg <= 0)%Q ->
        run_simulation no_broker (mkEnv 7 [1 # 3]%Q) coarse_app_cfg 2 true None
          (Some "out.jsonl") empty_world
        = Returned tt
            (world_of (run_simulation no_broker (mkEnv 7 [1 # 3]%Q) coarse_app_cfg 2
                         true None (Some "out.jsonl") empty_world))).
Proof.
  apply (dry_run_log_matches_console (list Q) scripted_source no_broker
           (mkEnv 7 [1 # 3]%Q) coarse_app_cfg coarse_sim_cfg 2 None "out.jsonl"
           "out.jsonl" empty_world
           (mkWorld [] (<["out.jsonl" := mkFileState false []]> ∅) [])).
  - reflexivity.
  - lia.
  - discriminate.
  - simpl. lia.
  - discriminate.
  - reflexivity.
Defined.

(** X17: the log file is opened before the broker is contacted and outside
    the [try]: when a run that is not a dry run fails to connect, the
    exception of [connect_mqtt] leaves [run_simulation] as it is, nothing is
    published, and the log file stays as [open] left it, truncated and not
    closed. *)
Theorem failed_connection_leaves_log_open :
  forall (G : Type) (RS : RandomSource G)
         (connect_mqtt : MqttConfig -> IO MqttClientHandle) (env : Env G)
         (cfg : AppConfig) (sim_cfg : SimulationConfig) (steps : Z)
         (seed_override : option Z) (path : string) (w w' : World) (e : PyExn),
    simulation cfg = Some sim_cfg ->
    0 < steps ->
    locations sim_cfg <> [] ->
    path <> "" ->
    connect_mqtt (mqtt cfg)
      (mkWorld (w_stdout w) (<[path := mkFileState false []]> (w_files w)) (w_broker w))
    = Raised e w' ->
    run_simulation connect_mqtt env cfg steps false seed_override (Some path) w
    = Raised e w'.
Proof.
  intros G RS connect_mqtt env cfg sim_cfg steps seed_override path w w' e
         Hsim Hsteps Hlocs Hpath Hconnect.
  unfold run_simulation. rewrite Hsim.
  destruct (Z.leb_spec steps 0) as [?|_]; [lia|].
  destruct (locations sim_cfg) as [|site sites] eqn:Elocs; [congruence|].
  assert (Hne : String.eqb path "" = false) by (apply String.eqb_neq; exact Hpath).
  rewrite Hne. unfold io_bind, open_w, io_ret. simpl. rewrite Hconnect. reflexivity.
Qed.

Lemma failed_connection_leaves_log_open_witness :
  run_simulation no_broker (mkEnv 7 [1 # 3]%Q) coarse_app_cfg 2 false None
    (Some "out.jsonl")
    (mkWorld [] {["out.jsonl" := mkFileState true [msg_line demo_mqtt_cfg demo_msg]]} [])
  = Raised (ConnectionError "no broker")
      (mkWorld [] {["out.jsonl" := mkFileState false []]} []).
Proof.
  apply (failed_connection_leaves_log_open (list Q) scripted_source no_broker
           (mkEnv 7 [1 # 3]%Q) coarse_app_cfg coarse_sim_cfg 2 None "out.jsonl"
           (mkWorld [] {["out.jsonl" := mkFileState true [msg_line demo_mqtt_cfg demo_msg]]} [])
           (mkWorld [] {["out.jsonl" := mkFileState false []]} [])
           (ConnectionError "no broker")).
  - reflexivity.
  - lia.
  - discriminate.
  - discriminate.
  - vm_compute. reflexivity.
Defined.
